(** * YoSmart API client: token lifecycle and request dispatcher

    A shallow embedding of [docs/yosmart-api/yosmart_client.py]: the class
    [YoSmartAPIClient] (construction, [authenticate], [refresh_access_token],
    [_ensure_valid_token], [_call_api]) and the module function
    [create_client], followed by the properties of the token lifecycle
    manager and of the dispatcher.

    The client is a Python object whose attributes are mutated in place, and
    it talks to two things outside the program: the wall clock
    ([datetime.now()]) and the network ([requests.post]).  Methods are
    therefore computations in a state-and-exception monad; what the clock
    reads and what the network answers is fixed by a [World], over which the
    theorems quantify.  Logging is left out: the [logger] calls format
    values that are already computed and change nothing the client reads. *)

From Stdlib Require Import ZArith List String Ascii Bool Lia DecimalString DecimalPos.
Import ListNotations.

Local Open Scope string_scope.
Local Open Scope Z_scope.

Set Warnings "-register-all".

(** ** Exceptions *)

(** The classes of [Exception] that the code can meet.  All of them derive
    from [Exception], so an [except Exception] clause catches each one. *)
Inductive exn_class :=
| RequestException   (* requests: connection error, timeout, ... *)
| JSONDecodeError    (* response.json() on a body that is not JSON *)
| AttributeError
| TypeError
| OverflowError
| ValueError.

Record exn := Exn { exn_kind : exn_class; exn_str : string }.

(** The outcome of evaluating a Python expression or statement. *)
Inductive result (A : Type) :=
| Ok (a : A)
| Raise (e : exn).
Arguments Ok {A} a.
Arguments Raise {A} e.

(** ** Python values *)

(** Floating-point numbers reach the client only inside JSON documents.  The
    client tests them for truth and hands them to [timedelta(seconds=...)];
    both are library behaviour, kept abstract here. *)
Class PyFloat := {
  pyfloat : Type;
  (** [bool(f)] *)
  float_bool : pyfloat -> bool;
  (** microseconds of [timedelta(seconds=f)], before the range check on
      days; raises for infinities and NaN *)
  float_seconds_us : pyfloat -> result Z
}.

Section Values.
Context {F : PyFloat}.

(** What [json.loads] produces, which is also all that the client stores in
    its token attributes and sends as parameters.  A [dict] is the list of
    its items in insertion order; a lookup takes the first item with the
    key. *)
Inductive pyval :=
| PNone
| PBool (b : bool)
| PInt (z : Z)
| PFloat (f : pyfloat)
| PStr (s : string)
| PList (l : list pyval)
| PDict (d : list (string * pyval)).

(** Truth value testing, as [if x], [not x] and [x or y] apply it. *)
Definition truthy (v : pyval) : bool :=
  match v with
  | PNone => false
  | PBool b => b
  | PInt z => negb (z =? 0)
  | PFloat f => float_bool f
  | PStr s => negb (s =? "")%string
  | PList l => match l with [] => false | _ => true end
  | PDict d => match d with [] => false | _ => true end
  end.

(** [d.get(k, default)] on the items of a dict. *)
Fixpoint dict_get (d : list (string * pyval)) (k : string) (default : pyval) : pyval :=
  match d with
  | [] => default
  | (k', v) :: d' => if (k' =? k)%string then v else dict_get d' k default
  end.

(** [k in d] *)
Fixpoint dict_mem (d : list (string * pyval)) (k : string) : bool :=
  match d with
  | [] => false
  | (k', _) :: d' => if (k' =? k)%string then true else dict_mem d' k
  end.

(** [d[k] = v]: replaces the value of an existing key in place, appends a
    new key at the end. *)
Fixpoint dict_set (d : list (string * pyval)) (k : string) (v : pyval) : list (string * pyval) :=
  match d with
  | [] => [(k, v)]
  | (k', v') :: d' =>
      if (k' =? k)%string then (k', v) :: d' else (k', v') :: dict_set d' k v
  end.

(** [x.get(k, default)] on an arbitrary value: only a dict has the method. *)
Definition py_get (x : pyval) (k : string) (default : pyval) : result pyval :=
  match x with
  | PDict d => Ok (dict_get d k default)
  | _ => Raise (Exn AttributeError "object has no attribute 'get'")
  end.

(** [str(n)] for an [int]. *)
Definition str_int (n : Z) : string := NilZero.string_of_int (Z.to_int n).

(** [a or b] *)
Definition py_or (a b : pyval) : pyval := if truthy a then a else b.

End Values.

(** ** Dates and durations *)

(** A naive [datetime] is the number of microseconds since
    0001-01-01T00:00:00 ([datetime.min]); a [timedelta] is a number of
    microseconds.  Both types are bounded in Python, and the arithmetic
    raises [OverflowError] when a result leaves the range. *)
Definition datetime := Z.
Definition timedelta := Z.

Definition US_PER_SECOND : Z := 1000000.
Definition US_PER_DAY : Z := 86400 * US_PER_SECOND.

(** [datetime.max] is 9999-12-31T23:59:59.999999, day 3652059 of the
    proleptic calendar. *)
Definition DATETIME_MAX : datetime := 3652059 * US_PER_DAY - 1.

(** [timedelta.max.days] *)
Definition MAX_DELTA_DAYS : Z := 999999999.

Definition valid_datetime (t : datetime) : Prop := 0 <= t <= DATETIME_MAX.

(** Normalisation of a duration: the day count must fit. *)
Definition timedelta_of_us (us : Z) : result timedelta :=
  if Z.abs (us / US_PER_DAY) <=? MAX_DELTA_DAYS then Ok us
  else Raise (Exn OverflowError "days must have magnitude <= 999999999").

(** [timedelta(minutes=n)] for an integer literal [n]. *)
Definition timedelta_minutes (n : Z) : timedelta := n * 60 * US_PER_SECOND.

(** [t + d] on a datetime and a timedelta. *)
Definition datetime_add (t : datetime) (d : timedelta) : result datetime :=
  let r := t + d in
  if (0 <=? r) && (r <=? DATETIME_MAX) then Ok r
  else Raise (Exn OverflowError "date value out of range").

(** [t - d] on a datetime and a timedelta. *)
Definition datetime_sub (t : datetime) (d : timedelta) : result datetime :=
  datetime_add t (- d).

Section Model.
Context {F : PyFloat}.

(** [timedelta(seconds=v)] for a value read from a JSON document: integers
    (and booleans, which are integers) are exact, floats go through the
    library's rounding, anything else is a [TypeError]. *)
Definition timedelta_seconds (v : pyval) : result timedelta :=
  match v with
  | PInt n => timedelta_of_us (n * US_PER_SECOND)
  | PBool b => timedelta_of_us ((if b then 1 else 0) * US_PER_SECOND)
  | PFloat f =>
      match float_seconds_us f with
      | Ok us => timedelta_of_us us
      | Raise e => Raise e
      end
  | _ => Raise (Exn TypeError "unsupported type for timedelta seconds component")
  end.

(** ** The world outside the client *)

(** One reading of the clock: [datetime.now()] as a naive datetime, and the
    integer [int(datetime.now().timestamp() * 1000)] that the same reading
    yields (the conversion goes through local time and floating point, so
    it is taken from the world rather than computed). *)
Record instant := { naive : datetime; epoch_ms : Z }.

(** A [requests.Response], as far as the client looks at it:
    [response.status_code] and what [response.json()] does. *)
Record response := { status_code : Z; json : result pyval }.

(** The value of a header.  [Bearer tok] stands for the f-string
    [f'Bearer {tok}']. *)
Inductive header_value :=
| Literal (s : string)
| Bearer (tok : pyval).

(** The arguments of one [requests.post(url, data=, json=, headers=,
    timeout=)]. *)
Record request := {
  url : string;
  data : option (list (string * pyval));
  json_body : option pyval;
  headers : list (string * header_value);
  timeout : option Z
}.

(** The client's environment.  The [n]-th reading of the clock is
    [clock n]; the [n]-th exchange with the token endpoint (the posts made
    by [authenticate] and [refresh_access_token]) ends as [token_endpoint n],
    the [n]-th exchange made by [_call_api] as [api_endpoint n]: either
    [requests.post] raises, or it returns a response. *)
Record World := {
  clock : nat -> instant;
  token_endpoint : nat -> result response;
  api_endpoint : nat -> result response;
  environ : string -> option string
}.

(** ** Observable events *)

Inductive method_name := Authenticate | RefreshAccessToken.

(** The trace records, oldest first, every entry into [authenticate] and
    [refresh_access_token] and every call of [requests.post]. *)
Inductive event :=
| Called (m : method_name)
| Posted (r : request).

(** The part of the process state that is not the client object. *)
Record Process := {
  ticks : nat;          (* clock readings taken so far *)
  token_posts : nat;    (* exchanges with the token endpoint so far *)
  api_posts : nat;      (* exchanges made by the dispatcher so far *)
  trace : list event
}.

(** ** The client object *)

Record Client := {
  uaid : pyval;
  secret_key : pyval;
  auto_refresh : bool;
  access_token : pyval;
  refresh_token : pyval;
  token_expires_at : option datetime;
  home_id : pyval;
  devices : list pyval
}.

Record State := { self : Client; process : Process }.

Definition TOKEN_URL := "https://api.yosmart.com/open/yolink/token".
Definition API_URL := "https://api.yosmart.com/open/yolink/v2/api".
Definition PRODUCTION_URL := "https://api.yosmart.com/open/production/v2/api".

(** [YoSmartAPIClient.__init__] *)
Definition __init__ (uaid secret_key : pyval) (auto_refresh : bool) : Client :=
  {| uaid := uaid;
     secret_key := secret_key;
     auto_refresh := auto_refresh;
     access_token := PNone;
     refresh_token := PNone;
     token_expires_at := None;
     home_id := PNone;
     devices := [] |}.

(** Assignment to one attribute of the object. *)
Definition set_access_token (v : pyval) (c : Client) : Client :=
  {| uaid := uaid c; secret_key := secret_key c; auto_refresh := auto_refresh c;
     access_token := v;
     refresh_token := refresh_token c; token_expires_at := token_expires_at c;
     home_id := home_id c; devices := devices c |}.

Definition set_refresh_token (v : pyval) (c : Client) : Client :=
  {| uaid := uaid c; secret_key := secret_key c; auto_refresh := auto_refresh c;
     access_token := access_token c;
     refresh_token := v;
     token_expires_at := token_expires_at c;
     home_id := home_id c; devices := devices c |}.

Definition set_token_expires_at (t : option datetime) (c : Client) : Client :=
  {| uaid := uaid c; secret_key := secret_key c; auto_refresh := auto_refresh c;
     access_token := access_token c; refresh_token := refresh_token c;
     token_expires_at := t;
     home_id := home_id c; devices := devices c |}.

(** ** Computations *)

(** A computation reads the world, transforms a state of type [S], and
    either returns a value or raises.  The state reached when an exception
    is raised is kept: assignments made before the exception are not undone. *)
Definition M (S A : Type) : Type := World -> S -> result A * S.

Definition ret {S A} (a : A) : M S A := fun _ s => (Ok a, s).

Definition bind {S A B} (m : M S A) (k : A -> M S B) : M S B :=
  fun w s =>
    match m w s with
    | (Ok a, s') => k a w s'
    | (Raise e, s') => (Raise e, s')
    end.

Definition raise {S A} (e : exn) : M S A := fun _ s => (Raise e, s).

(** An expression whose evaluation touches neither state nor world. *)
Definition lift {S A} (r : result A) : M S A := fun _ s => (r, s).

(** [try: body  except Exception as e: handler e] *)
Definition try_except {S A} (body : M S A) (handler : exn -> M S A) : M S A :=
  fun w s =>
    match body w s with
    | (Ok a, s') => (Ok a, s')
    | (Raise e, s') => handler e w s'
    end.

Notation "x <- m ;; k" := (bind m (fun x => k))
  (at level 61, m at next level, right associativity).
Notation "m ;; k" := (bind m (fun _ => k))
  (at level 61, right associativity).

(** *** Effects on the process *)

(** [datetime.now()] *)
Definition datetime_now : M Process instant :=
  fun w p =>
    (Ok (clock w (ticks p)),
     {| ticks := S (ticks p); token_posts := token_posts p;
        api_posts := api_posts p; trace := trace p |}).

Definition log_event (e : event) : M Process unit :=
  fun _ p =>
    (Ok tt,
     {| ticks := ticks p; token_posts := token_posts p;
        api_posts := api_posts p; trace := trace p ++ [e] |}).

(** [requests.post], at the call sites of [authenticate] and
    [refresh_access_token]. *)
Definition post_token (r : request) : M Process response :=
  fun w p =>
    (token_endpoint w (token_posts p),
     {| ticks := ticks p; token_posts := S (token_posts p);
        api_posts := api_posts p; trace := trace p ++ [Posted r] |}).

(** [requests.post], at the call site of [_call_api]. *)
Definition post_api (r : request) : M Process response :=
  fun w p =>
    (api_endpoint w (api_posts p),
     {| ticks := ticks p; token_posts := token_posts p;
        api_posts := S (api_posts p); trace := trace p ++ [Posted r] |}).

(** [os.getenv(k)] *)
Definition getenv (k : string) : M Process pyval :=
  fun w p =>
    (Ok match environ w k with Some v => PStr v | None => PNone end, p).

(** *** Effects seen from a method *)

Definition get_self : M State Client := fun _ s => (Ok (self s), s).

Definition update_self (f : Client -> Client) : M State unit :=
  fun _ s => (Ok tt, {| self := f (self s); process := process s |}).

Definition in_process {A} (m : M Process A) : M State A :=
  fun w s =>
    let (r, p) := m w (process s) in
    (r, {| self := self s; process := p |}).

(** ** The token lifecycle manager *)

(** The form posted by [authenticate] (lines 55-62). *)
Definition client_credentials_request (c : Client) : request :=
  {| url := TOKEN_URL;
     data := Some [("grant_type", PStr "client_credentials");
                   ("client_id", uaid c);
                   ("client_secret", secret_key c)];
     json_body := None; headers := []; timeout := None |}.

(** The form posted by [refresh_access_token] (lines 93-100). *)
Definition refresh_token_request (c : Client) : request :=
  {| url := TOKEN_URL;
     data := Some [("grant_type", PStr "refresh_token");
                   ("client_id", uaid c);
                   ("refresh_token", refresh_token c)];
     json_body := None; headers := []; timeout := None |}.

(** [YoSmartAPIClient.authenticate] *)
Definition authenticate : M State bool :=
  in_process (log_event (Called Authenticate)) ;;
  try_except
    (c <- get_self ;;
     response <- in_process (post_token (client_credentials_request c)) ;;
     if status_code response =? 200 then
       data <- lift (json response) ;;
       tok <- lift (py_get data "access_token" PNone) ;;
       update_self (set_access_token tok) ;;
       rtok <- lift (py_get data "refresh_token" PNone) ;;
       update_self (set_refresh_token rtok) ;;
       expires_in <- lift (py_get data "expires_in" (PInt 3600)) ;;
       now <- in_process datetime_now ;;
       delta <- lift (timedelta_seconds expires_in) ;;
       expiry <- lift (datetime_add (naive now) delta) ;;
       update_self (set_token_expires_at (Some expiry)) ;;
       ret true
     else
       ret false)
    (fun _ => ret false).

(** [YoSmartAPIClient.refresh_access_token] *)
Definition refresh_access_token : M State bool :=
  in_process (log_event (Called RefreshAccessToken)) ;;
  c <- get_self ;;
  if negb (truthy (refresh_token c)) then
    authenticate
  else
    try_except
      (response <- in_process (post_token (refresh_token_request c)) ;;
       if status_code response =? 200 then
         data <- lift (json response) ;;
         tok <- lift (py_get data "access_token" PNone) ;;
         update_self (set_access_token tok) ;;
         expires_in <- lift (py_get data "expires_in" (PInt 3600)) ;;
         now <- in_process datetime_now ;;
         delta <- lift (timedelta_seconds expires_in) ;;
         expiry <- lift (datetime_add (naive now) delta) ;;
         update_self (set_token_expires_at (Some expiry)) ;;
         ret true
       else
         ret false)
      (fun _ => ret false).

(** [YoSmartAPIClient._ensure_valid_token].  The comparison reads the clock
    first and then subtracts the margin from the stored expiry; the
    subtraction is outside any [try]. *)
Definition _ensure_valid_token : M State bool :=
  c <- get_self ;;
  if negb (truthy (access_token c)) then
    authenticate
  else
    match auto_refresh c, token_expires_at c with
    | true, Some expiry =>
        now <- in_process datetime_now ;;
        limit <- lift (datetime_sub expiry (timedelta_minutes 5)) ;;
        if naive now >? limit then refresh_access_token else ret true
    | _, _ => ret true
    end.

(** ** The request dispatcher *)

(** Lines 155-161: the envelope of a call. *)
Definition build_payload (method : string) (time : Z) (params : pyval)
  : list (string * pyval) :=
  let payload := [("method", PStr method); ("time", PInt time)] in
  if truthy params then dict_set payload "params" params else payload.

(** [YoSmartAPIClient._call_api] *)
Definition _call_api (method : string) (params : pyval) (target : option string)
  : M State pyval :=
  valid <- _ensure_valid_token ;;
  if negb valid then
    ret (PDict [("code", PStr "999999");
                ("desc", PStr "Failed to obtain valid token")])
  else
    let target := match target with None => API_URL | Some u => u end in
    now <- in_process datetime_now ;;
    let payload := build_payload method (epoch_ms now) params in
    try_except
      (c <- get_self ;;
       let hdrs := [("Content-Type", Literal "application/json");
                    ("Authorization", Bearer (access_token c))] in
       response <- in_process (post_api
         {| url := target; data := None; json_body := Some (PDict payload);
            headers := hdrs; timeout := Some 10 |}) ;;
       if status_code response =? 200 then
         lift (json response)
       else
         ret (PDict [("code", PStr (str_int (status_code response)));
                     ("desc", PStr ("HTTP " ++ str_int (status_code response)
                                    ++ " error"))]))
      (fun e => ret (PDict [("code", PStr "999999"); ("desc", PStr (exn_str e))])).

(** ** Module-level construction *)

(** [create_client]: explicit arguments win over the environment variables
    [YOSMART_UAID] and [YOSMART_SECRET]; the client is built with the
    default [auto_refresh=True]. *)
Definition create_client (uaid secret_key : pyval) : M Process Client :=
  env_uaid <- getenv "YOSMART_UAID" ;;
  let uaid := py_or uaid env_uaid in
  env_secret <- getenv "YOSMART_SECRET" ;;
  let secret_key := py_or secret_key env_secret in
  if negb (truthy uaid) || negb (truthy secret_key) then
    raise (Exn ValueError
      "UAID and secret_key must be provided or set as environment variables")
  else
    ret (__init__ uaid secret_key true).

(** ** Vocabulary of the specification *)

Definition method_name_eqb (a b : method_name) : bool :=
  match a, b with
  | Authenticate, Authenticate => true
  | RefreshAccessToken, RefreshAccessToken => true
  | _, _ => false
  end.

(** How many times method [m] was entered in a trace. *)
Fixpoint calls (m : method_name) (tr : list event) : nat :=
  match tr with
  | [] => 0%nat
  | Called m' :: tr' =>
      if method_name_eqb m m' then S (calls m tr') else calls m tr'
  | Posted _ :: tr' => calls m tr'
  end.

(** How many times [requests.post] was called in a trace. *)
Fixpoint posts (tr : list event) : nat :=
  match tr with
  | [] => 0%nat
  | Called _ :: tr' => posts tr'
  | Posted _ :: tr' => S (posts tr')
  end.

(** The [ApiResult] shape: a dict whose ['code'] is a non-empty string and
    whose ['desc'] is a string (['data'] is optional). *)
Definition well_formed_ApiResult (v : pyval) : bool :=
  match v with
  | PDict d =>
      match dict_get d "code" PNone, dict_get d "desc" PNone with
      | PStr code, PStr _ => negb (code =? "")%string
      | _, _ => false
      end
  | _ => false
  end.

(** The three attributes that make up the token state. *)
Definition token_state (c : Client) : pyval * pyval * option datetime :=
  (access_token c, refresh_token c, token_expires_at c).

(** The data-model invariant: no expiry instant without an access token. *)
Definition token_invariant (c : Client) : Prop :=
  access_token c = PNone -> token_expires_at c = None.

(** The stored expiry, when there is one, lies far enough from
    [datetime.min] for the five-minute margin to be subtracted from it. *)
Definition margin_representable (c : Client) : Prop :=
  forall expiry, token_expires_at c = Some expiry ->
    valid_datetime (expiry - timedelta_minutes 5).

(** The comparison of line 130 can be made: when it is reached, that is
    when a token is held, auto-renewal is enabled and an expiry is stored,
    the five-minute margin can be subtracted from that expiry. *)
Definition margin_checkable (c : Client) : Prop :=
  truthy (access_token c) = true ->
  auto_refresh c = true ->
  forall expiry, token_expires_at c = Some expiry ->
    valid_datetime (expiry - timedelta_minutes 5).

(** An exchange with the token endpoint that yields no token document:
    the post raised, the status is not 200, or the body is not a JSON
    object. *)
Definition no_token_document (o : result response) : bool :=
  match o with
  | Raise _ => true
  | Ok r =>
      if status_code r =? 200 then
        match json r with
        | Ok (PDict _) => false
        | _ => true
        end
      else true
  end.

(** Every token document that the token endpoint issues carries an access
    token. *)
Definition issues_access_tokens (w : World) : Prop :=
  forall n r d,
    token_endpoint w n = Ok r -> status_code r = 200 ->
    json r = Ok (PDict d) -> dict_get d "access_token" PNone <> PNone.

(** A credential is supplied by an argument or, failing that, by an
    environment variable; an empty string supplies nothing, as [or] and
    [not] see it. *)
Definition supplied (arg : pyval) (env : option string) : bool :=
  truthy arg ||
  match env with
  | Some v => negb (v =? "")%string
  | None => false
  end.

(** The operations of a client, and the states that a client can be in:
    those that construction followed by any sequence of operations
    reaches. *)
Inductive operation :=
| OpAuthenticate
| OpRefreshAccessToken
| OpEnsureValidToken
| OpCallApi (method : string) (params : pyval) (target : option string).

Definition run_operation (o : operation) (w : World) (s : State) : State :=
  match o with
  | OpAuthenticate => snd (authenticate w s)
  | OpRefreshAccessToken => snd (refresh_access_token w s)
  | OpEnsureValidToken => snd (_ensure_valid_token w s)
  | OpCallApi method params target => snd (_call_api method params target w s)
  end.

Inductive reachable (w : World) : State -> Prop :=
| reachable_init uaid secret_key auto_refresh p :
    reachable w {| self := __init__ uaid secret_key auto_refresh; process := p |}
| reachable_step s o :
    reachable w s -> reachable w (run_operation o w s).

(** ** The domain operations *)

Definition set_home_id (v : pyval) (c : Client) : Client :=
  {| uaid := uaid c; secret_key := secret_key c; auto_refresh := auto_refresh c;
     access_token := access_token c; refresh_token := refresh_token c;
     token_expires_at := token_expires_at c;
     home_id := v;
     devices := devices c |}.

(** [v == s] for a string literal [s]: only a string can be equal to it. *)
Definition py_eq_str (v : pyval) (s : string) : bool :=
  match v with
  | PStr s' => (s' =? s)%string
  | _ => false
  end.

(** [{'targetDevice': {'deviceId': device_id, 'token': device_token}}] *)
Definition target_device (device_id device_token : pyval) : list (string * pyval) :=
  [("targetDevice", PDict [("deviceId", device_id); ("token", device_token)])].

(** [YoSmartAPIClient.get_home_info] *)
Definition get_home_info : M State pyval :=
  result <- _call_api "Home.getGeneralInfo" PNone None ;;
  code <- lift (py_get result "code" PNone) ;;
  if py_eq_str code "000000" then
    data <- lift (py_get result "data" (PDict [])) ;;
    id <- lift (py_get data "id" PNone) ;;
    update_self (set_home_id id) ;;
    lift (py_get result "data" PNone)
  else
    ret PNone.

(** [YoSmartAPIClient.get_device_state].  The local [params] of lines
    229-235 is built and never used. *)
Definition get_device_state (device_id device_token : pyval) : M State pyval :=
  result <- _call_api "Hub.getState"
              (PDict (target_device device_id device_token)) None ;;
  code <- lift (py_get result "code" PNone) ;;
  if py_eq_str code "000000" then
    lift (py_get result "data" PNone)
  else
    ret PNone.

(** [d.update(other)] for a dict [other]: its items are assigned one by
    one, in order. *)
Definition dict_update (d other : list (string * pyval)) : list (string * pyval) :=
  fold_left (fun acc item => dict_set acc (fst item) (snd item)) other d.

(** Lines 264-272: the parameters of a control call.  [params] is an
    [Optional[Dict]]: [None] or the items of a dict. *)
Definition control_params (device_id device_token : pyval)
    (params : option (list (string * pyval))) : list (string * pyval) :=
  let control_params := target_device device_id device_token in
  match params with
  | Some (item :: items) => dict_update control_params (item :: items)
  | _ => control_params
  end.

(** [YoSmartAPIClient.control_device] *)
Definition control_device (device_id device_token : pyval) (method : string)
    (params : option (list (string * pyval))) : M State pyval :=
  _call_api method (PDict (control_params device_id device_token params)) None.

(** [YoSmartAPIClient.request_device_ids] *)
Definition request_device_ids (size : pyval) : M State pyval :=
  result <- _call_api "requestDeviceId" (PDict [("size", size)])
              (Some PRODUCTION_URL) ;;
  code <- lift (py_get result "code" PNone) ;;
  if py_eq_str code "000000" then
    data <- lift (py_get result "data" (PDict [])) ;;
    lift (py_get data "deviceIdList" (PList []))
  else
    ret (PList []).

(** Lines 313-319: the parameters of an activation. *)
Definition activation_params (chip_id app_eui device_id : pyval)
  : list (string * pyval) :=
  let params := [("chipId", chip_id); ("appEui", app_eui)] in
  if truthy device_id then dict_set params "deviceId" device_id else params.

(** [YoSmartAPIClient.activate_device_id] *)
Definition activate_device_id (chip_id app_eui device_id : pyval) : M State pyval :=
  result <- _call_api "activateDeviceId"
              (PDict (activation_params chip_id app_eui device_id))
              (Some PRODUCTION_URL) ;;
  code <- lift (py_get result "code" PNone) ;;
  if py_eq_str code "000000" then
    data <- lift (py_get result "data" (PDict [])) ;;
    lift (py_get data "deviceId" PNone)
  else
    ret PNone.

(** [YoSmartAPIClient.request_serial_numbers] *)
Definition request_serial_numbers (size : pyval) : M State pyval :=
  result <- _call_api "requestSN" (PDict [("size", size)])
              (Some PRODUCTION_URL) ;;
  code <- lift (py_get result "code" PNone) ;;
  if py_eq_str code "000000" then
    data <- lift (py_get result "data" (PDict [])) ;;
    lift (py_get data "snList" (PList []))
  else
    ret (PList []).

(** Lines 366-369: the parameters of a binding. *)
Definition binding_params (device_id sn : pyval) : list (string * pyval) :=
  let params := [("deviceId", device_id)] in
  if truthy sn then dict_set params "sn" sn else params.

(** [YoSmartAPIClient.bind_serial_number] *)
Definition bind_serial_number (device_id sn : pyval) : M State pyval :=
  result <- _call_api "bindSN" (PDict (binding_params device_id sn))
              (Some PRODUCTION_URL) ;;
  code <- lift (py_get result "code" PNone) ;;
  if py_eq_str code "000000" then
    data <- lift (py_get result "data" (PDict [])) ;;
    lift (py_get data "sn" PNone)
  else
    ret PNone.

(** *** Vocabulary for the domain operations *)

(** The operations that unwrap the result of a call. *)
Inductive domain_call :=
| GetHomeInfo
| GetDeviceState (device_id device_token : pyval)
| RequestDeviceIds (size : pyval)
| ActivateDeviceId (chip_id app_eui device_id : pyval)
| RequestSerialNumbers (size : pyval)
| BindSerialNumber (device_id sn : pyval).

Definition run_domain_call (c : domain_call) : M State pyval :=
  match c with
  | GetHomeInfo => get_home_info
  | GetDeviceState device_id device_token => get_device_state device_id device_token
  | RequestDeviceIds size => request_device_ids size
  | ActivateDeviceId chip_id app_eui device_id =>
      activate_device_id chip_id app_eui device_id
  | RequestSerialNumbers size => request_serial_numbers size
  | BindSerialNumber device_id sn => bind_serial_number device_id sn
  end.

(** What an operation returns when the call did not succeed. *)
Definition failure_value (c : domain_call) : pyval :=
  match c with
  | RequestDeviceIds _ | RequestSerialNumbers _ => PList []
  | _ => PNone
  end.

(** The operations of the device-provisioning surface. *)
Definition provisioning (c : domain_call) : bool :=
  match c with
  | GetHomeInfo | GetDeviceState _ _ => false
  | _ => true
  end.

(** The parsed body that an exchange with the API yields, if it yields
    one: the status is 200 and [response.json()] returns. *)
Definition api_body (o : result response) : option pyval :=
  match o with
  | Ok r =>
      if status_code r =? 200 then
        match json r with
        | Ok v => Some v
        | Raise _ => None
        end
      else None
  | Raise _ => None
  end.

(** The attributes that are not part of the token state and that the
    token manager and the dispatcher have no business with. *)
Definition configuration (c : Client) : pyval * pyval * bool * pyval * list pyval :=
  (uaid c, secret_key c, auto_refresh c, home_id c, devices c).

Definition is_dict (v : pyval) : bool :=
  match v with
  | PDict _ => true
  | _ => false
  end.

(** The exception that ends an exchange with the API, if one does:
    raised by [requests.post], or by [response.json()] on a 200
    response. *)
Definition exchange_error (o : result response) : option exn :=
  match o with
  | Raise e => Some e
  | Ok r =>
      if status_code r =? 200 then
        match json r with
        | Ok _ => None
        | Raise e => Some e
        end
      else None
  end.

(** The request of lines 164-169, for an envelope [payload] and the access
    token [token] held when it is sent. *)
Definition api_request (target : option string) (payload : list (string * pyval))
    (token : pyval) : request :=
  {| url := match target with None => API_URL | Some u => u end;
     data := None;
     json_body := Some (PDict payload);
     headers := [("Content-Type", Literal "application/json");
                 ("Authorization", Bearer token)];
     timeout := Some 10 |}.

(** The operations that look inside ['data']: all but [get_device_state],
    which hands ['data'] back as it is. *)
Definition reads_data (c : domain_call) : bool :=
  match c with
  | GetDeviceState _ _ => false
  | _ => true
  end.

(** The key of ['data'] under which a provisioning operation finds its
    result. *)
Definition result_key (c : domain_call) : option string :=
  match c with
  | RequestDeviceIds _ => Some "deviceIdList"
  | ActivateDeviceId _ _ _ => Some "deviceId"
  | RequestSerialNumbers _ => Some "snList"
  | BindSerialNumber _ _ => Some "sn"
  | _ => None
  end.

(** The state that a dispatch leaves: the state [s1] after the token
    check, with one more clock reading and the request [r] sent. *)
Definition after_dispatch (s1 : State) (r : request) : State :=
  {| self := self s1;
     process :=
       {| ticks := S (ticks (process s1));
          token_posts := token_posts (process s1);
          api_posts := S (api_posts (process s1));
          trace := trace (process s1) ++ [Posted r] |} |}.

(** ** Status introspection *)

(** [x is not None] *)
Definition is_not_none (v : pyval) : bool :=
  match v with
  | PNone => false
  | _ => true
  end.

(** [YoSmartAPIClient.get_status].  [isoformat] stands for
    [datetime.isoformat], which belongs to the library; the clock is read
    only when an expiry is stored, by the [and] of line 392. *)
Definition get_status (isoformat : datetime -> string) : M State pyval :=
  c <- get_self ;;
  let authenticated := PBool (is_not_none (access_token c)) in
  token_valid <-
    match token_expires_at c with
    | None => ret PNone
    | Some expiry =>
        now <- in_process datetime_now ;;
        ret (PBool (naive now <? expiry))
    end ;;
  let expires :=
    match token_expires_at c with
    | Some expiry => PStr (isoformat expiry)
    | None => PNone
    end in
  ret (PDict [("authenticated", authenticated);
              ("token_valid", token_valid);
              ("token_expires_at", expires);
              ("home_id", home_id c);
              ("device_count", PInt (Z.of_nat (List.length (devices c))))]).

End Model.

(** * Scenarios *)

(** Concrete clients and worlds, used to run the model.  None of them has a
    floating-point number in a JSON document. *)
Definition no_floats : PyFloat :=
  {| pyfloat := Empty_set;
     float_bool := fun f => match f with end;
     float_seconds_us := fun f => match f with end |}.

Section Scenarios.
#[local] Existing Instance no_floats.

(** 2026-01-01T12:00:00, day 739616 after [datetime.min]. *)
Definition noon : datetime := 739616 * US_PER_DAY + 12 * 3600 * US_PER_SECOND.

(** A clock that starts at [noon] (UTC) and advances by one second per
    reading. *)
Definition steady_clock (n : nat) : instant :=
  {| naive := noon + Z.of_nat n * US_PER_SECOND;
     epoch_ms := 1767268800000 + Z.of_nat n * 1000 |}.

(** A world whose token endpoint always ends as [token_outcome] and whose
    API endpoint always ends as [api_outcome], with no environment variable
    set. *)
Definition steady_world (token_outcome api_outcome : result response) : World :=
  {| clock := steady_clock;
     token_endpoint := fun _ => token_outcome;
     api_endpoint := fun _ => api_outcome;
     environ := fun _ => None |}.

Definition http (status : Z) (body : pyval) : result response :=
  Ok {| status_code := status; json := Ok body |}.

Definition token_document : pyval :=
  PDict [("access_token", PStr "tok1"); ("expires_in", PInt 3600)].

Definition rotated_token_document : pyval :=
  PDict [("access_token", PStr "tok2"); ("refresh_token", PStr "ref2");
         ("expires_in", PInt 3600)].

(** A token document whose lifetime is a string. *)
Definition quoted_lifetime_document : pyval :=
  PDict [("access_token", PStr "tok2"); ("refresh_token", PStr "ref2");
         ("expires_in", PStr "3600")].

Definition success_body : pyval :=
  PDict [("code", PStr "000000"); ("desc", PStr "Success");
         ("data", PDict [("id", PStr "home1")])].

Definition new_process : Process :=
  {| ticks := 0; token_posts := 0; api_posts := 0; trace := [] |}.

(** A client just constructed. *)
Definition new_client : State :=
  {| self := __init__ (PStr "ua_test") (PStr "sec_test") true;
     process := new_process |}.

(** A client that holds the tokens [tok1] and [ref1], expiring
    [lifetime] microseconds after [noon]. *)
Definition holding (lifetime : Z) : State :=
  {| self :=
       set_token_expires_at (Some (noon + lifetime))
         (set_refresh_token (PStr "ref1")
            (set_access_token (PStr "tok1") (self new_client)));
     process := new_process |}.

(** The worlds of the scenarios. *)

(** Tokens are issued and the API answers with success. *)
Definition healthy_world : World :=
  steady_world (http 200 token_document) (http 200 success_body).

(** The API answers HTTP 200 with the JSON body [{}]. *)
Definition empty_body_world : World :=
  steady_world (http 200 token_document) (http 200 (PDict [])).

(** The API answers HTTP 500 with a body that is not JSON. *)
Definition internal_error : response :=
  {| status_code := 500;
     json := Raise (Exn JSONDecodeError "Expecting value: line 1 column 1 (char 0)") |}.

Definition failing_api_world : World :=
  steady_world (http 200 token_document) (Ok internal_error).

(** The token endpoint answers HTTP 200 with the JSON body [{}]. *)
Definition tokenless_world : World :=
  steady_world (http 200 (PDict [])) (http 200 success_body).

(** The token endpoint hands out a new refresh token with every token. *)
Definition rotating_world : World :=
  steady_world (http 200 rotated_token_document) (http 200 success_body).

(** The token endpoint sends the lifetime as a string. *)
Definition quoted_lifetime_world : World :=
  steady_world (http 200 quoted_lifetime_document) (http 200 success_body).

(** The token endpoint rejects the credentials. *)
Definition rejecting_world : World :=
  steady_world (http 401 (PDict [("error", PStr "invalid_client")]))
               (http 200 success_body).

(** The token endpoint declares a lifetime that ends at [datetime.min]. *)
Definition ancient_world : World :=
  steady_world
    (http 200 (PDict [("access_token", PStr "tok1");
                      ("expires_in", PInt (- (noon / US_PER_SECOND)))]))
    (http 200 success_body).

Definition one_hour : timedelta := 3600 * US_PER_SECOND.

(** Further worlds and clients. *)

Definition ok_response (body : pyval) : response :=
  {| status_code := 200; json := Ok body |}.

(** A token document without a lifetime. *)
Definition bare_token_document : pyval :=
  PDict [("access_token", PStr "tok1")].

Definition bare_world : World :=
  steady_world (http 200 bare_token_document) (http 200 success_body).

(** The API does not answer in time. *)
Definition read_timeout : exn :=
  Exn RequestException "Read timed out. (read timeout=10)".

Definition timeout_world : World :=
  steady_world (http 200 token_document) (Raise read_timeout).

(** The API answers HTTP 200 with a JSON list. *)
Definition list_body_world : World :=
  steady_world (http 200 token_document) (http 200 (PList [])).

(** The API reports success and sends [null] as data. *)
Definition null_data_body : pyval :=
  PDict [("code", PStr "000000"); ("desc", PStr "Success"); ("data", PNone)].

Definition null_data_world : World :=
  steady_world (http 200 token_document) (http 200 null_data_body).

(** The provisioning endpoint hands out two device identifiers. *)
Definition device_ids_body : pyval :=
  PDict [("code", PStr "000000"); ("desc", PStr "Success");
         ("data", PDict [("deviceIdList", PList [PStr "d1"; PStr "d2"])])].

Definition device_ids_world : World :=
  steady_world (http 200 token_document) (http 200 device_ids_body).

(** The state of [holding one_hour] after the token check: one clock
    reading, nothing else. *)
Definition checked : State :=
  {| self := self (holding one_hour);
     process := {| ticks := 1; token_posts := 0; api_posts := 0; trace := [] |} |}.

(** A client built with [auto_refresh=False] whose token expired an hour
    before [noon]. *)
Definition without_renewal : State :=
  {| self :=
       set_token_expires_at (Some (noon - one_hour))
         (set_access_token (PStr "tok1")
            (__init__ (PStr "ua_test") (PStr "sec_test") false));
     process := new_process |}.

(** A client built with [auto_refresh=False] whose token carries the
    expiry [datetime.min]. *)
Definition without_renewal_at_datetime_min : State :=
  {| self :=
       set_token_expires_at (Some 0)
         (set_access_token (PStr "tok1")
            (__init__ (PStr "ua_test") (PStr "sec_test") false));
     process := new_process |}.

(** Parameters of a control call that name the target themselves. *)
Definition overriding_params : list (string * pyval) :=
  [("state", PStr "open"); ("targetDevice", PStr "elsewhere")].

End Scenarios.

(** * Properties *)

Section Properties.
Context {F : PyFloat}.

(** Unfolds the monad and the primitive effects, leaving the tests of the
    method bodies. *)
Ltac run_monad :=
  cbv [bind ret raise lift try_except in_process get_self update_self
       log_event post_token post_api datetime_now getenv] in *;
  cbn [self process ticks token_posts api_posts trace fst snd] in *.

(** The test that blocks the evaluation of [t]: the innermost scrutinee. *)
Ltac blocking_test t :=
  match t with
  | context [match ?x with _ => _ end] => blocking_test x
  | _ => t
  end.

(** Splits on the test that blocks evaluation, and evaluates further. *)
Ltac case_split :=
  match goal with
  | |- context [match ?x with _ => _ end] =>
      let y := blocking_test x in
      first [ is_var y; destruct y | destruct y eqn:? ];
      run_monad
  end.

(** ** Traces *)

Lemma calls_app m tr1 tr2 :
  calls m (tr1 ++ tr2) = (calls m tr1 + calls m tr2)%nat.
Proof.
  induction tr1 as [|e tr1 IH]; cbn; [reflexivity|].
  destruct e as [m'|r]; [destruct (method_name_eqb m m')|]; cbn; lia.
Qed.

(** ** Decimal strings *)

Lemma string_of_uint_nonempty d :
  NilZero.string_of_uint d <> ""%string.
Proof. destruct d; cbn; discriminate. Qed.

Lemma str_int_nonempty n : (str_int n =? "")%string = false.
Proof.
  apply String.eqb_neq. unfold str_int.
  destruct (Z.to_int n) as [d|d]; cbn.
  - apply string_of_uint_nonempty.
  - discriminate.
Qed.

(** ** Dates *)

Lemma datetime_sub_valid t d :
  valid_datetime (t - d) -> datetime_sub t d = Ok (t - d).
Proof.
  unfold valid_datetime, datetime_sub, datetime_add. intros [Hlo Hhi].
  replace (t + - d) with (t - d) by lia.
  destruct (Z.leb_spec 0 (t - d)); [|lia].
  destruct (Z.leb_spec (t - d) DATETIME_MAX); [|lia].
  reflexivity.
Qed.

(** ** [authenticate] *)

(** [authenticate] catches everything: it returns a boolean, after exactly
    one request to the token endpoint. *)
Lemma authenticate_spec w s :
  exists b s',
    authenticate w s = (Ok b, s') /\
    trace (process s') =
      (trace (process s) ++
        [Called Authenticate; Posted (client_credentials_request (self s))])%list /\
    token_posts (process s') = S (token_posts (process s)) /\
    api_posts (process s') = api_posts (process s).
Proof.
  unfold authenticate. run_monad.
  repeat case_split; do 2 eexists; cbn;
    rewrite <- ?app_assoc; cbn; repeat split; reflexivity.
Qed.

(** ** [refresh_access_token] *)

Lemma refresh_access_token_spec w s :
  exists b s',
    refresh_access_token w s = (Ok b, s') /\
    trace (process s') =
      (trace (process s) ++
        Called RefreshAccessToken ::
        (if truthy (refresh_token (self s))
         then [Posted (refresh_token_request (self s))]
         else [Called Authenticate;
               Posted (client_credentials_request (self s))]))%list /\
    token_posts (process s') = S (token_posts (process s)) /\
    api_posts (process s') = api_posts (process s).
Proof.
  unfold refresh_access_token. run_monad.
  destruct (truthy (refresh_token (self s))); cbn [negb].
  - repeat case_split; do 2 eexists; cbn;
      rewrite <- ?app_assoc; cbn; repeat split; reflexivity.
  - match goal with
    | |- context [authenticate w ?s1] =>
        destruct (authenticate_spec w s1) as (b & s' & E & T & P & A)
    end.
    exists b, s'. cbn in *. rewrite <- app_assoc in T. auto.
Qed.

(** ** [_ensure_valid_token] *)

Lemma posts_app tr1 tr2 :
  posts (tr1 ++ tr2) = (posts tr1 + posts tr2)%nat.
Proof.
  induction tr1 as [|e tr1 IH]; cbn; [reflexivity|].
  destruct e; cbn; lia.
Qed.

(** C2: without an access token (the attribute is [None], or any other
    falsy value), [_ensure_valid_token] is one call of [authenticate]: it
    returns what [authenticate] returns and leaves the state that
    [authenticate] leaves, whatever [auto_refresh] and [token_expires_at]
    hold; the trace gains exactly one entry into [authenticate] and none
    into [refresh_access_token]. *)
Theorem ensure_valid_token_authenticates w s :
  truthy (access_token (self s)) = false ->
  exists b s',
    _ensure_valid_token w s = (Ok b, s') /\
    authenticate w s = (Ok b, s') /\
    calls Authenticate (trace (process s')) =
      S (calls Authenticate (trace (process s))) /\
    calls RefreshAccessToken (trace (process s')) =
      calls RefreshAccessToken (trace (process s)).
Proof.
  intros Hnone.
  destruct (authenticate_spec w s) as (b & s' & E & T & _ & _).
  exists b, s'. unfold _ensure_valid_token. run_monad.
  rewrite Hnone. cbn [negb]. rewrite E, T, !calls_app. cbn.
  repeat split; lia.
Qed.

(** C4: with an access token held, auto-renewal enabled and an expiry more
    than five minutes after the current time, [_ensure_valid_token]
    returns [True]; it reads the clock and does nothing else: the client
    object is unchanged and the trace gains no event, so neither
    [authenticate] nor [refresh_access_token] ran and no request was sent. *)
Theorem ensure_valid_token_fresh w s expiry :
  truthy (access_token (self s)) = true ->
  auto_refresh (self s) = true ->
  token_expires_at (self s) = Some expiry ->
  valid_datetime expiry ->
  valid_datetime (naive (clock w (ticks (process s)))) ->
  naive (clock w (ticks (process s))) + timedelta_minutes 5 < expiry ->
  exists s',
    _ensure_valid_token w s = (Ok true, s') /\
    self s' = self s /\
    trace (process s') = trace (process s) /\
    token_posts (process s') = token_posts (process s) /\
    api_posts (process s') = api_posts (process s).
Proof.
  intros Htok Hauto Hexp [_ Hmax] [Hmin _] Hfar.
  unfold _ensure_valid_token. run_monad.
  rewrite Htok, Hauto, Hexp. cbn [negb].
  assert (0 <= timedelta_minutes 5) by (cbv; discriminate).
  rewrite datetime_sub_valid by (unfold valid_datetime; lia).
  destruct (Z.gtb_spec (naive (clock w (ticks (process s))))
                       (expiry - timedelta_minutes 5)); [lia|].
  eexists. repeat split; reflexivity.
Qed.

(** C3, amended: with an access token held, auto-renewal enabled and the
    current time strictly later than five minutes before the expiry,
    [_ensure_valid_token] enters [refresh_access_token] exactly once; that
    refresh enters [authenticate] exactly once when no refresh token is
    held, and not at all otherwise.  Either way exactly one request is
    sent. *)
Theorem ensure_valid_token_refreshes w s expiry :
  truthy (access_token (self s)) = true ->
  auto_refresh (self s) = true ->
  token_expires_at (self s) = Some expiry ->
  valid_datetime (expiry - timedelta_minutes 5) ->
  expiry - timedelta_minutes 5 < naive (clock w (ticks (process s))) ->
  exists b s',
    _ensure_valid_token w s = (Ok b, s') /\
    calls RefreshAccessToken (trace (process s')) =
      S (calls RefreshAccessToken (trace (process s))) /\
    calls Authenticate (trace (process s')) =
      ((if truthy (refresh_token (self s)) then 0 else 1)
       + calls Authenticate (trace (process s)))%nat /\
    posts (trace (process s')) = S (posts (trace (process s))).
Proof.
  intros Htok Hauto Hexp Hvalid Hdue.
  unfold _ensure_valid_token. run_monad.
  rewrite Htok, Hauto, Hexp. cbn [negb].
  rewrite (datetime_sub_valid _ _ Hvalid).
  destruct (Z.gtb_spec (naive (clock w (ticks (process s))))
                       (expiry - timedelta_minutes 5)); [|lia].
  match goal with
  | |- context [refresh_access_token w ?s1] =>
      destruct (refresh_access_token_spec w s1) as (b & s' & E & T & _ & _)
  end.
  exists b, s'. cbn in T. rewrite E, T, !calls_app, posts_app.
  destruct (truthy (refresh_token (self s))); cbn; repeat split; lia.
Qed.

(** Whatever happens, [_ensure_valid_token] only appends to the trace,
    the requests it sends are form posts to the token endpoint (they carry
    no JSON body), and it does not use the dispatcher's channel. *)
Lemma ensure_valid_token_trace w s :
  exists evs,
    trace (process (snd (_ensure_valid_token w s))) =
      (trace (process s) ++ evs)%list /\
    api_posts (process (snd (_ensure_valid_token w s))) =
      api_posts (process s) /\
    forall r, In (Posted r) evs -> json_body r = None.
Proof.
  unfold _ensure_valid_token. run_monad.
  destruct (truthy (access_token (self s))); cbn [negb].
  - destruct (auto_refresh (self s)), (token_expires_at (self s)) as [expiry|];
      try (exists []; rewrite app_nil_r; cbn; tauto).
    destruct (datetime_sub expiry (timedelta_minutes 5)) as [limit|e];
      try (exists []; rewrite app_nil_r; cbn; tauto).
    destruct (naive (clock w (ticks (process s))) >? limit);
      try (exists []; rewrite app_nil_r; cbn; tauto).
    match goal with
    | |- context [refresh_access_token w ?s1] =>
        destruct (refresh_access_token_spec w s1) as (b & s' & E & T & _ & A)
    end.
    rewrite E. cbn in *. eexists. split; [exact T|]. split; [exact A|].
    intros r. destruct (truthy (refresh_token (self s))); cbn;
      intros H; repeat destruct H as [H|H]; try discriminate; try contradiction;
      inversion H; reflexivity.
  - destruct (authenticate_spec w s) as (b & s' & E & T & _ & A).
    rewrite E. cbn. eexists. split; [exact T|]. split; [exact A|].
    intros r H. cbn in H. repeat destruct H as [H|H];
      try discriminate; try contradiction.
    inversion H; reflexivity.
Qed.

(** [_ensure_valid_token] returns a boolean unless the margin cannot be
    subtracted from the stored expiry. *)
Lemma ensure_valid_token_returns w s :
  margin_representable (self s) ->
  exists b s', _ensure_valid_token w s = (Ok b, s').
Proof.
  intros Hm. unfold _ensure_valid_token. run_monad.
  destruct (truthy (access_token (self s))); cbn [negb].
  - destruct (auto_refresh (self s)); [|eauto].
    destruct (token_expires_at (self s)) as [expiry|] eqn:Hexp; [|eauto].
    rewrite (datetime_sub_valid _ _ (Hm _ Hexp)).
    destruct (_ >? _); [|eauto].
    match goal with
    | |- context [refresh_access_token w ?s1] =>
        destruct (refresh_access_token_spec w s1) as (b & s' & E & _)
    end.
    eauto.
  - destruct (authenticate_spec w s) as (b & s' & E & _). eauto.
Qed.

(** ** [_call_api] *)

(** [_ensure_valid_token] returns a boolean whenever the comparison of
    line 130 is not reached or can be made. *)
Lemma ensure_valid_token_checkable w s :
  margin_checkable (self s) ->
  exists b s', _ensure_valid_token w s = (Ok b, s').
Proof.
  intros Hm. unfold _ensure_valid_token. run_monad.
  destruct (truthy (access_token (self s))) eqn:Htok; cbn [negb].
  - destruct (auto_refresh (self s)) eqn:Hauto; [|eauto].
    destruct (token_expires_at (self s)) as [expiry|] eqn:Hexp; [|eauto].
    rewrite (datetime_sub_valid _ _ (Hm Htok Hauto _ Hexp)).
    destruct (_ >? _); [|eauto].
    match goal with
    | |- context [refresh_access_token w ?s1] =>
        destruct (refresh_access_token_spec w s1) as (b & s' & E & _)
    end.
    eauto.
  - destruct (authenticate_spec w s) as (b & s' & E & _). eauto.
Qed.

(** C1, amended: [_call_api] returns normally unless a token is held,
    auto-renewal is enabled and the stored expiry lies less than five
    minutes after [datetime.min].  The token check returns a boolean, and
    the value of the call is fixed by that boolean and by the exchange
    with the API: the dict with code 999999 and the text "Failed to obtain
    valid token" when the check fails; the dict with code 999999 and the
    text of the exception when [requests.post] raises or when the body of
    a 200 response does not parse; the dict with the decimal status as
    code and "HTTP <status> error" as text on any other status; and on a
    200 response with a body that parses, that body as it is.  Hence the
    value is a well-formed [ApiResult] with a non-empty ['code'], or the
    parsed body of a 200 response. *)
Theorem call_api_returns w s method params target :
  margin_checkable (self s) ->
  exists valid s1 v s',
    _ensure_valid_token w s = (Ok valid, s1) /\
    _call_api method params target w s = (Ok v, s') /\
    (if valid then
       match api_endpoint w (api_posts (process s)) with
       | Raise e =>
           v = PDict [("code", PStr "999999"); ("desc", PStr (exn_str e))]
       | Ok r =>
           if status_code r =? 200 then
             match json r with
             | Ok body => v = body
             | Raise e =>
                 v = PDict [("code", PStr "999999"); ("desc", PStr (exn_str e))]
             end
           else
             v = PDict [("code", PStr (str_int (status_code r)));
                        ("desc", PStr ("HTTP " ++ str_int (status_code r)
                                       ++ " error"))]
       end
     else
       v = PDict [("code", PStr "999999");
                  ("desc", PStr "Failed to obtain valid token")]) /\
    (well_formed_ApiResult v = true \/
     exists r,
       api_endpoint w (api_posts (process s)) = Ok r /\
       status_code r = 200 /\ json r = Ok v).
Proof.
  intros Hm.
  destruct (ensure_valid_token_checkable w s Hm) as (valid & s1 & E).
  destruct (ensure_valid_token_trace w s) as (_ & _ & A & _).
  rewrite E in A. cbn in A.
  exists valid, s1.
  unfold _call_api. unfold bind at 1. rewrite E.
  destruct valid; cbn [negb]; run_monad.
  - rewrite A.
    destruct (api_endpoint w (api_posts (process s))) as [r|e] eqn:Hr.
    + destruct (Z.eqb_spec (status_code r) 200) as [H200|H200].
      * destruct (json r) as [v|e] eqn:Hv; do 2 eexists;
          (split; [reflexivity|]); (split; [reflexivity|]);
          (split; [reflexivity|]); [right; eauto | left; reflexivity].
      * do 2 eexists. do 3 (split; [reflexivity|]). left.
        cbn. now rewrite str_int_nonempty.
    + do 2 eexists. do 3 (split; [reflexivity|]). left. reflexivity.
  - do 2 eexists. do 3 (split; [reflexivity|]). left. reflexivity.
Qed.

(** C5: when the token is valid and the POST completes with a status other
    than 200, [_call_api] returns the dict with exactly the two keys
    ['code'], the decimal string of the status, and ['desc'], the text
    "HTTP <status> error"; there is no ['data'] key, and [response.json]
    plays no part: the result is the same whatever the body is. *)
Theorem call_api_http_error w s method params target s1 r :
  _ensure_valid_token w s = (Ok true, s1) ->
  api_endpoint w (api_posts (process s1)) = Ok r ->
  status_code r <> 200 ->
  exists s',
    _call_api method params target w s =
      (Ok (PDict [("code", PStr (str_int (status_code r)));
                  ("desc", PStr ("HTTP " ++ str_int (status_code r) ++ " error"))]),
       s').
Proof.
  intros E Hr Hstatus.
  unfold _call_api. unfold bind at 1. rewrite E. cbn [negb]. run_monad.
  rewrite Hr.
  destruct (Z.eqb_spec (status_code r) 200); [contradiction|].
  eexists. reflexivity.
Qed.

(** C10: an empty [params] dict is dropped like an absent one.  The whole
    call, including every request it sends, is the same for [params={}]
    and [params=None]; the envelope has a ['params'] key exactly when
    [params] is truthy; and no JSON body sent during a call with
    [params={}] has a ['params'] key. *)
Theorem call_api_empty_params w s method target :
  _call_api method (PDict []) target w s = _call_api method PNone target w s /\
  (forall time params,
     dict_mem (build_payload method time params) "params" = truthy params) /\
  exists evs,
    trace (process (snd (_call_api method (PDict []) target w s))) =
      (trace (process s) ++ evs)%list /\
    forall r d, In (Posted r) evs -> json_body r = Some (PDict d) ->
      dict_mem d "params" = false.
Proof.
  split; [reflexivity|]. split.
  { intros time params. unfold build_payload.
    destruct (truthy params); reflexivity. }
  destruct (ensure_valid_token_trace w s) as (evs & T & _ & J).
  unfold _call_api. unfold bind at 1.
  destruct (_ensure_valid_token w s) as [[valid|e] s1]; cbn in T.
  - destruct valid; cbn [negb]; run_monad.
    + destruct target as [u|]; eexists (evs ++ [_])%list.
      all: split.
      all: try (repeat case_split; cbn; rewrite T, <- app_assoc; reflexivity).
      all: intros r d Hin Hbody; apply in_app_or in Hin;
        destruct Hin as [Hin|[Hin|[]]];
        [ rewrite (J _ Hin) in Hbody; discriminate
        | inversion Hin; subst r; cbn in Hbody; inversion Hbody; reflexivity ].
    + exists evs. split; [exact T|].
      intros r d Hin Hbody. rewrite (J _ Hin) in Hbody. discriminate.
  - exists evs. split; [exact T|].
    intros r d Hin Hbody. rewrite (J _ Hin) in Hbody. discriminate.
Qed.

(** ** The token state *)

(** A failed exchange leaves the token state alone. *)
Lemma authenticate_no_document w s :
  no_token_document (token_endpoint w (token_posts (process s))) = true ->
  exists s',
    authenticate w s = (Ok false, s') /\ token_state (self s') = token_state (self s).
Proof.
  unfold no_token_document, authenticate. run_monad. intros H.
  destruct (token_endpoint w (token_posts (process s))) as [r|e];
    [|eexists; split; reflexivity].
  destruct (status_code r =? 200); [|eexists; split; reflexivity].
  destruct (json r) as [[]|e]; try discriminate;
    eexists; split; reflexivity.
Qed.

Lemma refresh_access_token_no_document w s :
  no_token_document (token_endpoint w (token_posts (process s))) = true ->
  exists s',
    refresh_access_token w s = (Ok false, s') /\
    token_state (self s') = token_state (self s).
Proof.
  intros H. unfold refresh_access_token. run_monad.
  destruct (truthy (refresh_token (self s))); cbn [negb]; run_monad.
  - unfold no_token_document in H.
    destruct (token_endpoint w (token_posts (process s))) as [r|e];
      [|eexists; split; reflexivity].
    destruct (status_code r =? 200); [|eexists; split; reflexivity].
    destruct (json r) as [[]|e]; try discriminate;
      eexists; split; reflexivity.
  - match goal with
    | |- context [authenticate w ?s1] =>
        destruct (authenticate_no_document w s1 H) as (s' & E & T)
    end.
    eauto.
Qed.

(** C9, amended: when the exchange with the token endpoint ends in a
    transport exception, in a status other than 200, or in a body that
    fails to parse or is not a JSON object, [authenticate] and
    [refresh_access_token] return [False] and leave [access_token],
    [refresh_token] and [token_expires_at] exactly as they were. *)
Theorem token_acquisition_failure_is_atomic w s :
  no_token_document (token_endpoint w (token_posts (process s))) = true ->
  (exists s',
     authenticate w s = (Ok false, s') /\
     token_state (self s') = token_state (self s)) /\
  (exists s',
     refresh_access_token w s = (Ok false, s') /\
     token_state (self s') = token_state (self s)).
Proof.
  intros H. split.
  - now apply authenticate_no_document.
  - now apply refresh_access_token_no_document.
Qed.

(** With a refresh token held, [refresh_access_token] never assigns
    [refresh_token], whatever the token endpoint answers. *)
Lemma refresh_access_token_keeps_refresh_token w s :
  truthy (refresh_token (self s)) = true ->
  refresh_token (self (snd (refresh_access_token w s))) = refresh_token (self s).
Proof.
  intros H. unfold refresh_access_token. run_monad.
  rewrite H. cbn [negb]. run_monad.
  unfold py_get. repeat case_split; reflexivity.
Qed.

(** A successful refresh takes the access token from the response and sets
    the expiry to the lifetime counted from the clock reading. *)
Lemma refresh_access_token_success w s r d lifetime :
  truthy (refresh_token (self s)) = true ->
  token_endpoint w (token_posts (process s)) = Ok r ->
  status_code r = 200 ->
  json r = Ok (PDict d) ->
  timedelta_seconds (dict_get d "expires_in" (PInt 3600)) = Ok lifetime ->
  valid_datetime (naive (clock w (ticks (process s))) + lifetime) ->
  exists s',
    refresh_access_token w s = (Ok true, s') /\
    access_token (self s') = dict_get d "access_token" PNone /\
    token_expires_at (self s') =
      Some (naive (clock w (ticks (process s))) + lifetime) /\
    refresh_token (self s') = refresh_token (self s).
Proof.
  intros Hrt Hr H200 Hd Hlife [Hlo Hhi].
  unfold refresh_access_token. run_monad.
  rewrite Hrt. cbn [negb]. run_monad.
  rewrite Hr, H200, Hd. cbn. rewrite Hlife.
  unfold datetime_add. cbv zeta.
  destruct (Z.leb_spec 0 (naive (clock w (ticks (process s))) + lifetime)); [|lia].
  destruct (Z.leb_spec (naive (clock w (ticks (process s))) + lifetime) DATETIME_MAX);
    [|lia].
  eexists. repeat split; reflexivity.
Qed.

(** *** The invariant *)

Lemma authenticate_invariant w s :
  issues_access_tokens w ->
  token_invariant (self s) ->
  token_invariant (self (snd (authenticate w s))).
Proof.
  intros Hw Hinv. unfold authenticate. run_monad.
  destruct (token_endpoint w (token_posts (process s))) as [r|e] eqn:Hr;
    [|exact Hinv].
  destruct (Z.eqb_spec (status_code r) 200) as [H200|]; [|exact Hinv].
  destruct (json r) as [data|e] eqn:Hd; [|exact Hinv].
  destruct data; try exact Hinv.
  pose proof (Hw _ _ _ Hr H200 Hd) as Htok.
  cbn [py_get]. run_monad.
  repeat case_split; cbn; intros Habs; contradiction.
Qed.

Lemma refresh_access_token_invariant w s :
  issues_access_tokens w ->
  token_invariant (self s) ->
  token_invariant (self (snd (refresh_access_token w s))).
Proof.
  intros Hw Hinv. unfold refresh_access_token. run_monad.
  destruct (truthy (refresh_token (self s))); cbn [negb]; run_monad.
  - destruct (token_endpoint w (token_posts (process s))) as [r|e] eqn:Hr;
      [|exact Hinv].
    destruct (Z.eqb_spec (status_code r) 200) as [H200|]; [|exact Hinv].
    destruct (json r) as [data|e] eqn:Hd; [|exact Hinv].
    destruct data; try exact Hinv.
    pose proof (Hw _ _ _ Hr H200 Hd) as Htok.
    cbn [py_get]. run_monad.
    repeat case_split; cbn; intros Habs; contradiction.
  - match goal with
    | |- context [authenticate w ?s1] =>
        exact (authenticate_invariant w s1 Hw Hinv)
    end.
Qed.

Lemma ensure_valid_token_invariant w s :
  issues_access_tokens w ->
  token_invariant (self s) ->
  token_invariant (self (snd (_ensure_valid_token w s))).
Proof.
  intros Hw Hinv. unfold _ensure_valid_token. run_monad.
  destruct (truthy (access_token (self s))); cbn [negb].
  - destruct (auto_refresh (self s)); [|exact Hinv].
    destruct (token_expires_at (self s)) as [expiry|] eqn:Hexp; [|exact Hinv].
    destruct (datetime_sub expiry (timedelta_minutes 5)); [|exact Hinv].
    destruct (_ >? _); [|exact Hinv].
    match goal with
    | |- context [refresh_access_token w ?s1] =>
        exact (refresh_access_token_invariant w s1 Hw Hinv)
    end.
  - now apply authenticate_invariant.
Qed.

(** The dispatcher touches the client object only through
    [_ensure_valid_token]. *)
Lemma call_api_self w s method params target :
  self (snd (_call_api method params target w s)) =
  self (snd (_ensure_valid_token w s)).
Proof.
  unfold _call_api. unfold bind at 1.
  destruct (_ensure_valid_token w s) as [[valid|e] s1]; [|reflexivity].
  destruct valid; cbn [negb]; run_monad; repeat case_split; reflexivity.
Qed.

(** C6, amended: provided every token document issued by the token
    endpoint carries a non-null access token, the invariant holds in every
    state that construction followed by any sequence of [authenticate],
    [refresh_access_token], [_ensure_valid_token] and [_call_api] reaches:
    whenever [access_token] is [None], [token_expires_at] is [None] too. *)
Theorem token_invariant_reachable w s :
  issues_access_tokens w ->
  reachable w s ->
  token_invariant (self s).
Proof.
  intros Hw Hreach.
  induction Hreach as [uaid secret_key auto_refresh p | s o Hreach IH].
  - intros _. reflexivity.
  - destruct o; cbn [run_operation].
    + now apply authenticate_invariant.
    + now apply refresh_access_token_invariant.
    + now apply ensure_valid_token_invariant.
    + rewrite call_api_self. now apply ensure_valid_token_invariant.
Qed.

(** ** Construction *)

(** C8: [create_client] raises [ValueError] exactly when the identifier
    or the secret is supplied neither by the argument nor by its
    environment variable, and returns a client otherwise.  Either way the
    process is left as it was: construction reads the clock at no point
    and sends nothing; the client it returns holds no token. *)
Theorem create_client_configuration w p (arg_uaid arg_secret : pyval) :
  exists outcome,
    create_client arg_uaid arg_secret w p = (outcome, p) /\
    match outcome with
    | Raise e =>
        exn_kind e = ValueError /\
        (supplied arg_uaid (environ w "YOSMART_UAID") = false \/
         supplied arg_secret (environ w "YOSMART_SECRET") = false)
    | Ok c =>
        supplied arg_uaid (environ w "YOSMART_UAID") = true /\
        supplied arg_secret (environ w "YOSMART_SECRET") = true /\
        access_token c = PNone /\ token_expires_at c = None /\
        uaid c = (if truthy arg_uaid then arg_uaid
                  else match environ w "YOSMART_UAID" with
                       | Some v => PStr v | None => PNone end) /\
        secret_key c = (if truthy arg_secret then arg_secret
                        else match environ w "YOSMART_SECRET" with
                             | Some v => PStr v | None => PNone end)
    end.
Proof.
  unfold create_client, supplied, py_or. run_monad.
  destruct (truthy arg_uaid) eqn:Hu, (truthy arg_secret) eqn:Hk,
    (environ w "YOSMART_UAID") as [u|], (environ w "YOSMART_SECRET") as [k|];
    rewrite ?Hu, ?Hk; cbn [truthy negb orb];
    try destruct (u =? "")%string; try destruct (k =? "")%string;
    cbn [negb orb]; eexists; (split; [reflexivity|]); cbn; auto 10.
Qed.

(** * Further properties of the token lifecycle manager *)

Lemma datetime_add_valid t d :
  valid_datetime (t + d) -> datetime_add t d = Ok (t + d).
Proof.
  unfold valid_datetime, datetime_add. intros [Hlo Hhi]. cbv zeta.
  destruct (Z.leb_spec 0 (t + d)); [|lia].
  destruct (Z.leb_spec (t + d) DATETIME_MAX); [|lia].
  reflexivity.
Qed.

Lemma datetime_add_inv t d e :
  datetime_add t d = Ok e -> e = t + d /\ valid_datetime (t + d).
Proof.
  unfold valid_datetime, datetime_add. cbv zeta.
  destruct (Z.leb_spec 0 (t + d)); cbn [andb]; [|discriminate].
  destruct (Z.leb_spec (t + d) DATETIME_MAX); [|discriminate].
  intros E. inversion E. lia.
Qed.


Lemma dict_get_absent d k default :
  dict_mem d k = false -> dict_get d k default = default.
Proof.
  induction d as [|[k' v] d IH]; cbn; [reflexivity|].
  destruct (k' =? k)%string; [discriminate|exact IH].
Qed.

(** X1: [authenticate] never lets an exception out, whatever the token
    endpoint does; it sends exactly one request, the client-credentials
    form built from the client's own identifier and secret, sends nothing
    through the dispatcher, and leaves the identifier, the secret,
    [auto_refresh], [home_id] and [devices] as they were. *)
Theorem authenticate_single_guarded_request w s :
  exists b s',
    authenticate w s = (Ok b, s') /\
    trace (process s') =
      (trace (process s) ++
        [Called Authenticate; Posted (client_credentials_request (self s))])%list /\
    token_posts (process s') = S (token_posts (process s)) /\
    api_posts (process s') = api_posts (process s) /\
    configuration (self s') = configuration (self s).
Proof.
  unfold authenticate. run_monad.
  repeat case_split; do 2 eexists; cbn;
    rewrite <- ?app_assoc; cbn; repeat split; reflexivity.
Qed.

Lemma authenticate_success_run w s r d lifetime :
  token_endpoint w (token_posts (process s)) = Ok r ->
  status_code r = 200 ->
  json r = Ok (PDict d) ->
  timedelta_seconds (dict_get d "expires_in" (PInt 3600)) = Ok lifetime ->
  valid_datetime (naive (clock w (ticks (process s))) + lifetime) ->
  authenticate w s =
    (Ok true,
     {| self :=
          set_token_expires_at
            (Some (naive (clock w (ticks (process s))) + lifetime))
            (set_refresh_token (dict_get d "refresh_token" PNone)
               (set_access_token (dict_get d "access_token" PNone) (self s)));
        process :=
          {| ticks := S (ticks (process s));
             token_posts := S (token_posts (process s));
             api_posts := api_posts (process s);
             trace := (trace (process s) ++
                        [Called Authenticate;
                         Posted (client_credentials_request (self s))])%list |} |}).
Proof.
  intros Hr H200 Hd Hlife Hvalid.
  unfold authenticate. run_monad.
  rewrite Hr, H200, Hd. cbn. rewrite Hlife.
  rewrite (datetime_add_valid _ _ Hvalid).
  rewrite <- app_assoc. reflexivity.
Qed.

(** X2: when the token endpoint answers 200 with a JSON object whose
    lifetime converts and ends within the range of [datetime],
    [authenticate] returns [True] and replaces the whole token state: the
    access token and the refresh token are what the object holds under
    these keys ([None] for a missing key, also when a refresh token was
    held before), the expiry is the clock reading plus the lifetime. *)
Theorem authenticate_success w s r d lifetime :
  token_endpoint w (token_posts (process s)) = Ok r ->
  status_code r = 200 ->
  json r = Ok (PDict d) ->
  timedelta_seconds (dict_get d "expires_in" (PInt 3600)) = Ok lifetime ->
  valid_datetime (naive (clock w (ticks (process s))) + lifetime) ->
  exists s',
    authenticate w s = (Ok true, s') /\
    token_state (self s') =
      (dict_get d "access_token" PNone,
       dict_get d "refresh_token" PNone,
       Some (naive (clock w (ticks (process s))) + lifetime)).
Proof.
  intros Hr H200 Hd Hlife Hvalid.
  rewrite (authenticate_success_run w s r d lifetime Hr H200 Hd Hlife Hvalid).
  eexists. split; reflexivity.
Qed.

(** X3: a token document without an ['expires_in'] key is given a
    lifetime of 3600 seconds. *)
Theorem authenticate_default_lifetime w s r d :
  token_endpoint w (token_posts (process s)) = Ok r ->
  status_code r = 200 ->
  json r = Ok (PDict d) ->
  dict_mem d "expires_in" = false ->
  valid_datetime (naive (clock w (ticks (process s))) + 3600 * US_PER_SECOND) ->
  exists s',
    authenticate w s = (Ok true, s') /\
    token_expires_at (self s') =
      Some (naive (clock w (ticks (process s))) + 3600 * US_PER_SECOND).
Proof.
  intros Hr H200 Hd Hmem Hvalid.
  assert (Hlife : timedelta_seconds (dict_get d "expires_in" (PInt 3600))
                  = Ok (3600 * US_PER_SECOND)).
  { rewrite (dict_get_absent _ _ _ Hmem). reflexivity. }
  rewrite (authenticate_success_run w s r d _ Hr H200 Hd Hlife Hvalid).
  eexists. split; reflexivity.
Qed.

(** X4: [authenticate] returns [True] only after a 200 response whose body
    is a JSON object with a lifetime that converts: the token state is
    then the one read from that object, and the stored expiry is a
    datetime within range. *)
Theorem authenticate_true_inv w s s' :
  authenticate w s = (Ok true, s') ->
  exists r d lifetime,
    token_endpoint w (token_posts (process s)) = Ok r /\
    status_code r = 200 /\
    json r = Ok (PDict d) /\
    timedelta_seconds (dict_get d "expires_in" (PInt 3600)) = Ok lifetime /\
    valid_datetime (naive (clock w (ticks (process s))) + lifetime) /\
    token_state (self s') =
      (dict_get d "access_token" PNone,
       dict_get d "refresh_token" PNone,
       Some (naive (clock w (ticks (process s))) + lifetime)).
Proof.
  unfold authenticate. run_monad.
  destruct (token_endpoint w (token_posts (process s))) as [r|e] eqn:Hr;
    [|intros E; discriminate E].
  destruct (Z.eqb_spec (status_code r) 200) as [H200|];
    [|intros E; discriminate E].
  destruct (json r) as [data|e] eqn:Hd; [|intros E; discriminate E].
  destruct data; cbn [py_get]; try (intros E; discriminate E).
  run_monad.
  destruct (timedelta_seconds (dict_get d "expires_in" (PInt 3600)))
    as [lifetime|e] eqn:Hlife; [|intros E; discriminate E].
  destruct (datetime_add (naive (clock w (ticks (process s)))) lifetime)
    as [expiry|e] eqn:Hadd; intros E; [|discriminate E].
  apply datetime_add_inv in Hadd. destruct Hadd as [-> Hvalid].
  inversion E; subst s'.
  exists r, d, lifetime. repeat split; auto; apply Hvalid.
Qed.

(** X5: with a refresh token held, [refresh_access_token] never lets an
    exception out and never enters [authenticate]; it sends exactly one
    request, the refresh-token form carrying the stored refresh token, and
    leaves the identifier, the secret, [auto_refresh], [home_id] and
    [devices] as they were. *)
Theorem refresh_single_guarded_request w s :
  truthy (refresh_token (self s)) = true ->
  exists b s',
    refresh_access_token w s = (Ok b, s') /\
    trace (process s') =
      (trace (process s) ++
        [Called RefreshAccessToken; Posted (refresh_token_request (self s))])%list /\
    token_posts (process s') = S (token_posts (process s)) /\
    api_posts (process s') = api_posts (process s) /\
    configuration (self s') = configuration (self s).
Proof.
  intros Hrt. unfold refresh_access_token. run_monad.
  rewrite Hrt. cbn [negb]. run_monad.
  repeat case_split; do 2 eexists; cbn;
    rewrite <- ?app_assoc; cbn; repeat split; reflexivity.
Qed.

(** X6: with auto-renewal disabled, or with no expiry stored, a held
    access token is reported valid without looking at the clock and
    without any request, however old it is: the state is left untouched. *)
Theorem ensure_valid_token_without_renewal w s :
  truthy (access_token (self s)) = true ->
  auto_refresh (self s) = false \/ token_expires_at (self s) = None ->
  _ensure_valid_token w s = (Ok true, s).
Proof.
  intros Htok Hoff. unfold _ensure_valid_token. run_monad.
  rewrite Htok. cbn [negb].
  destruct Hoff as [-> | ->]; [reflexivity|].
  destruct (auto_refresh (self s)); reflexivity.
Qed.


Lemma ex_intro_split {A : Type} (P : Prop) (Q : A -> Prop) :
  P -> (exists a, Q a) -> exists a, P /\ Q a.
Proof. intros HP [a HQ]. eauto. Qed.

(** X8: a successful [authenticate] is followed by a quiet
    [_ensure_valid_token]: when the token obtained is truthy and the next
    clock reading is more than five minutes before the end of the declared
    lifetime, the check returns [True], changes nothing in the client and
    sends nothing. *)
Theorem authenticate_then_ensure_valid w s r d lifetime :
  token_endpoint w (token_posts (process s)) = Ok r ->
  status_code r = 200 ->
  json r = Ok (PDict d) ->
  timedelta_seconds (dict_get d "expires_in" (PInt 3600)) = Ok lifetime ->
  valid_datetime (naive (clock w (ticks (process s))) + lifetime) ->
  truthy (dict_get d "access_token" PNone) = true ->
  0 <= naive (clock w (S (ticks (process s)))) ->
  naive (clock w (S (ticks (process s)))) + timedelta_minutes 5
    < naive (clock w (ticks (process s))) + lifetime ->
  exists s1 s2,
    authenticate w s = (Ok true, s1) /\
    _ensure_valid_token w s1 = (Ok true, s2) /\
    self s2 = self s1 /\
    trace (process s2) = trace (process s1) /\
    token_posts (process s2) = token_posts (process s1).
Proof.
  intros Hr H200 Hd Hlife Hvalid Htok Hpos Hfar.
  rewrite (authenticate_success_run w s r d lifetime Hr H200 Hd Hlife Hvalid).
  eexists. eapply ex_intro_split; [reflexivity|].
  unfold _ensure_valid_token. run_monad.
  cbn [access_token auto_refresh token_expires_at
       set_access_token set_refresh_token set_token_expires_at].
  rewrite Htok. cbn [negb].
  destruct (auto_refresh (self s)).
  - assert (0 <= timedelta_minutes 5) by (cbv; discriminate).
    rewrite datetime_sub_valid by (unfold valid_datetime in *; lia).
    run_monad.
    destruct (Z.gtb_spec (naive (clock w (S (ticks (process s)))))
                (naive (clock w (ticks (process s))) + lifetime
                 - timedelta_minutes 5)); [lia|].
    eexists. repeat split; reflexivity.
  - eexists. repeat split; reflexivity.
Qed.

(** * Further properties of the dispatcher *)

(** What a dispatch does once the token check has passed: one clock
    reading for the envelope, one request, and nothing else. *)
Lemma call_api_dispatch w s method params target s1 :
  _ensure_valid_token w s = (Ok true, s1) ->
  exists v,
    _call_api method params target w s =
      (Ok v,
       {| self := self s1;
          process :=
            {| ticks := S (ticks (process s1));
               token_posts := token_posts (process s1);
               api_posts := S (api_posts (process s1));
               trace :=
                 (trace (process s1) ++
                   [Posted (api_request target
                              (build_payload method
                                 (epoch_ms (clock w (ticks (process s1)))) params)
                              (access_token (self s1)))])%list |} |}) /\
    match api_endpoint w (api_posts (process s1)) with
    | Raise e => v = PDict [("code", PStr "999999"); ("desc", PStr (exn_str e))]
    | Ok r =>
        if status_code r =? 200 then
          match json r with
          | Ok body => v = body
          | Raise e =>
              v = PDict [("code", PStr "999999"); ("desc", PStr (exn_str e))]
          end
        else
          v = PDict [("code", PStr (str_int (status_code r)));
                     ("desc", PStr ("HTTP " ++ str_int (status_code r)
                                    ++ " error"))]
    end.
Proof.
  intros E. unfold _call_api. unfold bind at 1. rewrite E. cbn [negb].
  run_monad. unfold api_request.
  destruct (api_endpoint w (api_posts (process s1))) as [r|e].
  - destruct (status_code r =? 200).
    + destruct (json r); eexists; split; reflexivity.
    + eexists; split; reflexivity.
  - eexists; split; reflexivity.
Qed.

Lemma authenticate_no_document_run w s :
  no_token_document (token_endpoint w (token_posts (process s))) = true ->
  authenticate w s =
    (Ok false,
     {| self := self s;
        process :=
          {| ticks := ticks (process s);
             token_posts := S (token_posts (process s));
             api_posts := api_posts (process s);
             trace := (trace (process s) ++
                        [Called Authenticate;
                         Posted (client_credentials_request (self s))])%list |} |}).
Proof.
  unfold no_token_document, authenticate. run_monad. intros H.
  rewrite <- app_assoc. cbn [app].
  destruct (token_endpoint w (token_posts (process s))) as [r|e]; [|reflexivity].
  destruct (status_code r =? 200); [|reflexivity].
  destruct (json r) as [[]|e]; try discriminate; reflexivity.
Qed.

Lemma call_api_invalid w s method params target s1 :
  _ensure_valid_token w s = (Ok false, s1) ->
  _call_api method params target w s =
    (Ok (PDict [("code", PStr "999999");
                ("desc", PStr "Failed to obtain valid token")]), s1).
Proof.
  intros E. unfold _call_api. unfold bind at 1. rewrite E. reflexivity.
Qed.

Lemma call_api_raises w s method params target e s1 :
  _ensure_valid_token w s = (Raise e, s1) ->
  _call_api method params target w s = (Raise e, s1).
Proof.
  intros E. unfold _call_api. unfold bind at 1. rewrite E. reflexivity.
Qed.

(** X9: when no access token is held and the exchange with the token
    endpoint yields no token document, [_call_api] returns the synthetic
    result with code 999999 and the text "Failed to obtain valid token";
    the token request is the only request sent, nothing goes through the
    dispatcher's channel, the clock is not read, and the token state is as
    before. *)
Theorem call_api_without_token w s method params target :
  truthy (access_token (self s)) = false ->
  no_token_document (token_endpoint w (token_posts (process s))) = true ->
  exists s',
    _call_api method params target w s =
      (Ok (PDict [("code", PStr "999999");
                  ("desc", PStr "Failed to obtain valid token")]), s') /\
    api_posts (process s') = api_posts (process s) /\
    ticks (process s') = ticks (process s) /\
    posts (trace (process s')) = S (posts (trace (process s))) /\
    token_state (self s') = token_state (self s).
Proof.
  intros Hnone Hfail.
  unfold _call_api. unfold bind at 1.
  unfold _ensure_valid_token. run_monad. rewrite Hnone. cbn [negb].
  rewrite (authenticate_no_document_run w s Hfail). cbn [negb].
  eexists. split; [reflexivity|]. cbn. rewrite posts_app. cbn.
  repeat split; lia.
Qed.

(** X10: when the token check has passed and the exchange ends in an
    exception, raised by [requests.post] (connection error, timeout) or by
    [response.json()] on a 200 response, [_call_api] returns the synthetic
    result with code 999999 whose description is the text of that
    exception. *)
Theorem call_api_transport_failure w s method params target s1 e :
  _ensure_valid_token w s = (Ok true, s1) ->
  exchange_error (api_endpoint w (api_posts (process s1))) = Some e ->
  exists s',
    _call_api method params target w s =
      (Ok (PDict [("code", PStr "999999"); ("desc", PStr (exn_str e))]), s').
Proof.
  intros E He.
  destruct (call_api_dispatch w s method params target s1 E) as (v & R & C).
  rewrite R. unfold exchange_error in He.
  destruct (api_endpoint w (api_posts (process s1))) as [r|e0].
  - destruct (status_code r =? 200); [|discriminate].
    destruct (json r); [discriminate|].
    inversion He; subst. eauto.
  - inversion He; subst. eauto.
Qed.

(** X11: when the token check has passed and the API answers 200 with a
    body that parses, [_call_api] returns the parsed body itself: code,
    description and data of the remote application are passed through
    unmodified, error codes included. *)
Theorem call_api_passes_body_through w s method params target s1 body :
  _ensure_valid_token w s = (Ok true, s1) ->
  api_body (api_endpoint w (api_posts (process s1))) = Some body ->
  exists s', _call_api method params target w s = (Ok body, s').
Proof.
  intros E Hb.
  destruct (call_api_dispatch w s method params target s1 E) as (v & R & C).
  rewrite R. unfold api_body in Hb.
  destruct (api_endpoint w (api_posts (process s1))) as [r|e0]; [|discriminate].
  destruct (status_code r =? 200); [|discriminate].
  destruct (json r); [|discriminate].
  inversion Hb; subst. eauto.
Qed.

(** X12: once the token check has passed, [_call_api] makes exactly one
    attempt.  It reads the clock once, after the check, for the ['time'] of
    the envelope; it sends one request, to the given URL or to [API_URL]
    when none is given, with the envelope as JSON body, the access token
    held after the check as bearer, and a timeout of 10 seconds; and it
    does not touch the client object. *)
Theorem call_api_single_request w s method params target s1 :
  _ensure_valid_token w s = (Ok true, s1) ->
  exists v s2,
    _call_api method params target w s = (Ok v, s2) /\
    self s2 = self s1 /\
    trace (process s2) =
      (trace (process s1) ++
        [Posted (api_request target
                   (build_payload method
                      (epoch_ms (clock w (ticks (process s1)))) params)
                   (access_token (self s1)))])%list /\
    ticks (process s2) = S (ticks (process s1)) /\
    api_posts (process s2) = S (api_posts (process s1)) /\
    token_posts (process s2) = token_posts (process s1).
Proof.
  intros E.
  destruct (call_api_dispatch w s method params target s1 E) as (v & R & _).
  rewrite R. do 2 eexists. repeat split; reflexivity.
Qed.

Lemma ensure_valid_token_counts w s :
  (token_posts (process (snd (_ensure_valid_token w s)))
     <= S (token_posts (process s)))%nat /\
  (posts (trace (process (snd (_ensure_valid_token w s))))
     <= S (posts (trace (process s))))%nat.
Proof.
  unfold _ensure_valid_token. run_monad.
  destruct (truthy (access_token (self s))); cbn [negb].
  - destruct (auto_refresh (self s)), (token_expires_at (self s)) as [expiry|];
      try (cbn; lia).
    destruct (datetime_sub expiry (timedelta_minutes 5)) as [limit|e];
      try (cbn; lia).
    destruct (naive (clock w (ticks (process s))) >? limit); try (cbn; lia).
    match goal with
    | |- context [refresh_access_token w ?s1] =>
        destruct (refresh_access_token_spec w s1) as (b & s' & E & T & P & _)
    end.
    rewrite E. cbn in *. rewrite T, P, posts_app.
    destruct (truthy (refresh_token (self s))); cbn; lia.
  - destruct (authenticate_spec w s) as (b & s' & E & T & P & _).
    rewrite E. cbn. rewrite T, P, posts_app. cbn. lia.
Qed.

(** X13: no retries.  Whatever happens, one invocation of [_call_api]
    makes at most one exchange with the API and at most one exchange with
    the token endpoint, hence at most two requests. *)
Theorem call_api_at_most_one_attempt w s method params target :
  (api_posts (process (snd (_call_api method params target w s)))
     <= S (api_posts (process s)))%nat /\
  (token_posts (process (snd (_call_api method params target w s)))
     <= S (token_posts (process s)))%nat /\
  (posts (trace (process (snd (_call_api method params target w s))))
     <= 2 + posts (trace (process s)))%nat.
Proof.
  destruct (ensure_valid_token_counts w s) as [Ht Hp].
  destruct (ensure_valid_token_trace w s) as (_ & _ & Ha & _).
  destruct (_ensure_valid_token w s) as [[valid|e] s1] eqn:E; cbn in Ht, Hp, Ha.
  - destruct valid.
    + destruct (call_api_dispatch w s method params target s1 E) as (v & R & _).
      rewrite R. cbn. rewrite posts_app. cbn. lia.
    + rewrite (call_api_invalid w s method params target s1 E). cbn [snd]. lia.
  - rewrite (call_api_raises w s method params target e s1 E). cbn [snd]. lia.
Qed.

Lemma refresh_success_run w s r d lifetime :
  truthy (refresh_token (self s)) = true ->
  token_endpoint w (token_posts (process s)) = Ok r ->
  status_code r = 200 ->
  json r = Ok (PDict d) ->
  timedelta_seconds (dict_get d "expires_in" (PInt 3600)) = Ok lifetime ->
  valid_datetime (naive (clock w (ticks (process s))) + lifetime) ->
  refresh_access_token w s =
    (Ok true,
     {| self :=
          set_token_expires_at
            (Some (naive (clock w (ticks (process s))) + lifetime))
            (set_access_token (dict_get d "access_token" PNone) (self s));
        process :=
          {| ticks := S (ticks (process s));
             token_posts := S (token_posts (process s));
             api_posts := api_posts (process s);
             trace := (trace (process s) ++
                        [Called RefreshAccessToken;
                         Posted (refresh_token_request (self s))])%list |} |}).
Proof.
  intros Hrt Hr H200 Hd Hlife Hvalid.
  unfold refresh_access_token. run_monad.
  rewrite Hrt. cbn [negb]. run_monad.
  rewrite Hr, H200, Hd. cbn. rewrite Hlife.
  rewrite (datetime_add_valid _ _ Hvalid).
  rewrite <- app_assoc. reflexivity.
Qed.

(** X14: a call made with a token that is due for renewal is authorised
    with the renewed token.  When the refresh succeeds, the call sends two
    requests in this order: the refresh-token form, then the API request,
    whose bearer is the access token of the refresh response and whose
    ['time'] is read from the clock after the renewal. *)
Theorem call_api_uses_renewed_token w s method params target expiry r d lifetime :
  truthy (access_token (self s)) = true ->
  auto_refresh (self s) = true ->
  token_expires_at (self s) = Some expiry ->
  valid_datetime (expiry - timedelta_minutes 5) ->
  expiry - timedelta_minutes 5 < naive (clock w (ticks (process s))) ->
  truthy (refresh_token (self s)) = true ->
  token_endpoint w (token_posts (process s)) = Ok r ->
  status_code r = 200 ->
  json r = Ok (PDict d) ->
  timedelta_seconds (dict_get d "expires_in" (PInt 3600)) = Ok lifetime ->
  valid_datetime (naive (clock w (S (ticks (process s)))) + lifetime) ->
  exists v s',
    _call_api method params target w s = (Ok v, s') /\
    access_token (self s') = dict_get d "access_token" PNone /\
    trace (process s') =
      (trace (process s) ++
        [Called RefreshAccessToken;
         Posted (refresh_token_request (self s));
         Posted (api_request target
                   (build_payload method
                      (epoch_ms (clock w (S (S (ticks (process s)))))) params)
                   (dict_get d "access_token" PNone))])%list.
Proof.
  intros Htok Hauto Hexp Hmargin Hdue Hrt Hr H200 Hd Hlife Hvalid.
  assert (E : exists s1,
             _ensure_valid_token w s = (Ok true, s1) /\
             access_token (self s1) = dict_get d "access_token" PNone /\
             ticks (process s1) = S (S (ticks (process s))) /\
             trace (process s1) =
               (trace (process s) ++
                 [Called RefreshAccessToken;
                  Posted (refresh_token_request (self s))])%list).
  { unfold _ensure_valid_token. run_monad.
    rewrite Htok, Hauto, Hexp. cbn [negb].
    rewrite (datetime_sub_valid _ _ Hmargin).
    destruct (Z.gtb_spec (naive (clock w (ticks (process s))))
                (expiry - timedelta_minutes 5)); [|lia].
    erewrite refresh_success_run; eauto.
    eexists. repeat split; reflexivity. }
  destruct E as (s1 & E & Ha & Ht & Tr).
  destruct (call_api_dispatch w s method params target s1 E) as (v & R & _).
  rewrite R. do 2 eexists. split; [reflexivity|].
  cbn. rewrite Ha, Ht, Tr, <- app_assoc. split; reflexivity.
Qed.

(** X15: the first call of a newly constructed client authenticates
    first.  Whatever the arguments of the constructor and whatever the
    world, the call returns normally; the trace gains an entry into
    [authenticate] and the client-credentials request, followed by at most
    one more request, which is the API request carrying the token just
    stored. *)
Theorem first_call_authenticates_first w p arg_uaid arg_secret auto
    method params target :
  exists v s' evs,
    _call_api method params target w
      {| self := __init__ arg_uaid arg_secret auto; process := p |} = (Ok v, s') /\
    trace (process s') =
      (trace p ++
        Called Authenticate ::
        Posted (client_credentials_request (__init__ arg_uaid arg_secret auto)) ::
        evs)%list /\
    (List.length evs <= 1)%nat /\
    forall r, In (Posted r) evs ->
      exists time,
        r = api_request target (build_payload method time params)
              (access_token (self s')).
Proof.
  set (s := {| self := __init__ arg_uaid arg_secret auto; process := p |}).
  destruct (authenticate_spec w s) as (b & s1 & E & T & _ & _).
  assert (En : _ensure_valid_token w s = (Ok b, s1)).
  { unfold _ensure_valid_token. run_monad. exact E. }
  destruct b.
  - destruct (call_api_dispatch w s method params target s1 En) as (v & R & _).
    rewrite R. do 3 eexists. split; [reflexivity|].
    cbn [self process trace]. rewrite T, <- app_assoc. cbn [app].
    split; [reflexivity|]. split; [cbn; lia|].
    intros r [H|[]]. inversion H. eauto.
  - unfold _call_api. unfold bind at 1. rewrite En. cbn [negb].
    do 2 eexists. exists []. split; [reflexivity|].
    rewrite T. split; [reflexivity|]. split; [cbn; lia|].
    intros r [].
Qed.

(** * Properties of the domain operations *)

Lemma string_of_uint_zeros u :
  NilEmpty.string_of_uint u = "000000" ->
  u = Decimal.D0 (Decimal.D0 (Decimal.D0 (Decimal.D0 (Decimal.D0
        (Decimal.D0 Decimal.Nil))))).
Proof.
  do 7 (destruct u as [|u|u|u|u|u|u|u|u|u|u]; cbn; try discriminate;
        try (intros H; injection H as H; revert H)).
  reflexivity.
Qed.

(** No HTTP status prints as the success code: [str] writes no leading
    zero. *)
Lemma str_int_not_success n : (str_int n =? "000000")%string = false.
Proof.
  apply String.eqb_neq. unfold str_int.
  destruct n as [|p|p]; cbn; try discriminate.
  unfold NilZero.string_of_uint.
  pose proof (Unsigned.of_to p) as Hp.
  destruct (Pos.to_uint p) eqn:Hu; try discriminate;
    intros H; apply string_of_uint_zeros in H; try discriminate.
  rewrite H in Hp. cbn in Hp. discriminate.
Qed.

(** *** The attributes outside the token state *)

Lemma authenticate_configuration w s :
  configuration (self (snd (authenticate w s))) = configuration (self s).
Proof.
  unfold authenticate. run_monad. repeat case_split; reflexivity.
Qed.

Lemma refresh_access_token_configuration w s :
  configuration (self (snd (refresh_access_token w s))) = configuration (self s).
Proof.
  unfold refresh_access_token. run_monad.
  destruct (truthy (refresh_token (self s))); cbn [negb]; run_monad.
  - repeat case_split; reflexivity.
  - match goal with
    | |- context [authenticate w ?s1] => exact (authenticate_configuration w s1)
    end.
Qed.

Lemma ensure_valid_token_configuration w s :
  configuration (self (snd (_ensure_valid_token w s))) = configuration (self s).
Proof.
  unfold _ensure_valid_token. run_monad.
  destruct (truthy (access_token (self s))); cbn [negb].
  - destruct (auto_refresh (self s)); [|reflexivity].
    destruct (token_expires_at (self s)) as [expiry|]; [|reflexivity].
    destruct (datetime_sub expiry (timedelta_minutes 5)); [|reflexivity].
    destruct (_ >? _); [|reflexivity].
    match goal with
    | |- context [refresh_access_token w ?s1] =>
        exact (refresh_access_token_configuration w s1)
    end.
  - apply authenticate_configuration.
Qed.

(** X16: the credentials are immutable, and the token manager and the
    dispatcher keep to the token state.  No sequence of [authenticate],
    [refresh_access_token], [_ensure_valid_token] and [_call_api] changes
    the identifier, the secret, [auto_refresh], [home_id] or [devices],
    whatever the world answers. *)
Theorem operations_preserve_configuration w s o :
  configuration (self (run_operation o w s)) = configuration (self s).
Proof.
  destruct o; cbn [run_operation].
  - apply authenticate_configuration.
  - apply refresh_access_token_configuration.
  - apply ensure_valid_token_configuration.
  - rewrite call_api_self. apply ensure_valid_token_configuration.
Qed.

(** *** Calls that do not succeed *)

(** When the token check fails, or passes and the exchange with the API
    brings back no parsed body, the dispatcher returns a dict whose code is
    not the success code, and the client is as the check left it. *)
Lemma call_api_no_body w s method params target valid s1 :
  _ensure_valid_token w s = (Ok valid, s1) ->
  (valid = true ->
   api_body (api_endpoint w (api_posts (process s1))) = None) ->
  exists d s',
    _call_api method params target w s = (Ok (PDict d), s') /\
    py_eq_str (dict_get d "code" PNone) "000000" = false /\
    self s' = self s1.
Proof.
  intros E Hb.
  destruct valid.
  - destruct (call_api_dispatch w s method params target s1 E) as (v & R & C).
    rewrite R. specialize (Hb eq_refl). unfold api_body in Hb.
    destruct (api_endpoint w (api_posts (process s1))) as [r|e].
    + destruct (status_code r =? 200).
      * destruct (json r); [discriminate|]. subst v.
        do 2 eexists. repeat split; reflexivity.
      * subst v. do 2 eexists. split; [reflexivity|]. split; [|reflexivity].
        cbn. apply str_int_not_success.
    + subst v. do 2 eexists. repeat split; reflexivity.
  - rewrite (call_api_invalid w s method params target s1 E).
    do 2 eexists. repeat split; reflexivity.
Qed.

(** The unwrapping steps that follow a call whose code is not the success
    code. *)
Ltac unwrap_failure H :=
  unfold bind at 1; rewrite H; run_monad; cbn [py_get];
  match goal with
  | Hc : py_eq_str _ _ = false |- _ => rewrite Hc
  end;
  eexists; split; [reflexivity|].

(** X17: when the token check returns and the call brings back no parsed
    body, every unwrapping operation returns its failure value, [None] or
    the empty list, without raising, and [home_id] keeps its value.  The
    call brings back no parsed body when the check fails (no token could
    be obtained), whatever the API would have answered, and when the check
    passes and the transport fails, the status is not 200, or the body of
    a 200 response is not JSON. *)
Theorem domain_call_failure w s c valid s1 :
  _ensure_valid_token w s = (Ok valid, s1) ->
  (valid = true ->
   api_body (api_endpoint w (api_posts (process s1))) = None) ->
  exists s',
    run_domain_call c w s = (Ok (failure_value c), s') /\
    home_id (self s') = home_id (self s).
Proof.
  intros E Hb.
  pose proof (ensure_valid_token_configuration w s) as Hcfg.
  rewrite E in Hcfg. cbn [snd] in Hcfg.
  assert (Hhome : forall s', self s' = self s1 ->
                             home_id (self s') = home_id (self s)).
  { intros s' ->. unfold configuration in Hcfg. now inversion Hcfg. }
  destruct c; cbn [run_domain_call failure_value].
  - destruct (call_api_no_body w s "Home.getGeneralInfo" PNone None _ _ E Hb)
      as (d & s' & R & Hc & Hs).
    unfold get_home_info. unwrap_failure R. auto.
  - destruct (call_api_no_body w s "Hub.getState"
                (PDict (target_device device_id device_token)) None _ _ E Hb)
      as (d & s' & R & Hc & Hs).
    unfold get_device_state. unwrap_failure R. auto.
  - destruct (call_api_no_body w s "requestDeviceId" (PDict [("size", size)])
                (Some PRODUCTION_URL) _ _ E Hb) as (d & s' & R & Hc & Hs).
    unfold request_device_ids. unwrap_failure R. auto.
  - destruct (call_api_no_body w s "activateDeviceId"
                (PDict (activation_params chip_id app_eui device_id))
                (Some PRODUCTION_URL) _ _ E Hb) as (d & s' & R & Hc & Hs).
    unfold activate_device_id. unwrap_failure R. auto.
  - destruct (call_api_no_body w s "requestSN" (PDict [("size", size)])
                (Some PRODUCTION_URL) _ _ E Hb) as (d & s' & R & Hc & Hs).
    unfold request_serial_numbers. unwrap_failure R. auto.
  - destruct (call_api_no_body w s "bindSN"
                (PDict (binding_params device_id sn))
                (Some PRODUCTION_URL) _ _ E Hb) as (d & s' & R & Hc & Hs).
    unfold bind_serial_number. unwrap_failure R. auto.
Qed.

(** *** Calls that bring back a body *)

Lemma call_api_body_run w s method params target s1 body :
  _ensure_valid_token w s = (Ok true, s1) ->
  api_body (api_endpoint w (api_posts (process s1))) = Some body ->
  _call_api method params target w s =
    (Ok body,
     after_dispatch s1
       (api_request target
          (build_payload method (epoch_ms (clock w (ticks (process s1)))) params)
          (access_token (self s1)))).
Proof.
  intros E Hb.
  destruct (call_api_dispatch w s method params target s1 E) as (v & R & C).
  rewrite R. unfold api_body in Hb.
  destruct (api_endpoint w (api_posts (process s1))) as [r|e0]; [|discriminate].
  destruct (status_code r =? 200); [|discriminate].
  destruct (json r); [|discriminate].
  inversion Hb; subst. reflexivity.
Qed.

(** Evaluates the unwrapping steps that follow a call whose run is [R]. *)
Ltac after_call R :=
  unfold bind at 1; rewrite R; run_monad; cbn [py_get]; run_monad.

(** X18: the unwrapping operations are not exception-safe.  When the API
    answers 200 with a JSON body that is not an object (a list, a string,
    a number, [null]), every one of them raises [AttributeError] on
    [result.get], although [_call_api] itself returned normally. *)
Theorem domain_call_rejects_non_object_body w s c s1 body :
  _ensure_valid_token w s = (Ok true, s1) ->
  api_body (api_endpoint w (api_posts (process s1))) = Some body ->
  is_dict body = false ->
  exists e s',
    run_domain_call c w s = (Raise e, s') /\
    exn_kind e = AttributeError.
Proof.
  intros E Hb Hnd.
  destruct c; cbn [run_domain_call];
    [ unfold get_home_info | unfold get_device_state | unfold request_device_ids
    | unfold activate_device_id | unfold request_serial_numbers
    | unfold bind_serial_number ];
    unfold bind at 1;
    rewrite (call_api_body_run w s _ _ _ s1 body E Hb);
    destruct body; try discriminate Hnd;
    run_monad; cbn [py_get]; run_monad;
    do 2 eexists; split; reflexivity.
Qed.

(** X19: when the API answers 200 with an object whose code is the
    success code, [get_home_info] stores [data['id']] in [home_id] and
    returns [data].  A missing ['data'] counts as an empty object for the
    identifier, so [home_id] becomes [None], and the operation returns
    [None]; a missing ['id'] gives [None] as well.  The token state is
    the one left by the token check. *)
Theorem get_home_info_success w s s1 d data :
  _ensure_valid_token w s = (Ok true, s1) ->
  api_body (api_endpoint w (api_posts (process s1))) = Some (PDict d) ->
  dict_get d "code" PNone = PStr "000000" ->
  dict_get d "data" (PDict []) = PDict data ->
  exists s',
    get_home_info w s = (Ok (dict_get d "data" PNone), s') /\
    home_id (self s') = dict_get data "id" PNone /\
    token_state (self s') = token_state (self s1).
Proof.
  intros E Hb Hcode Hdata.
  unfold get_home_info.
  after_call (call_api_body_run w s "Home.getGeneralInfo" PNone None s1 _ E Hb).
  rewrite Hcode. cbn [py_eq_str String.eqb Ascii.eqb Bool.eqb andb].
  run_monad. rewrite Hdata. cbn [py_get]. run_monad.
  eexists. repeat split; reflexivity.
Qed.

(** X20: [get_device_state] sends method ["Hub.getState"] with the device
    addressed under ['targetDevice'], and on the success code returns
    ['data'] as the body has it, whatever its type; a missing ['data']
    gives [None]. *)
Theorem get_device_state_success w s s1 d device_id device_token :
  _ensure_valid_token w s = (Ok true, s1) ->
  api_body (api_endpoint w (api_posts (process s1))) = Some (PDict d) ->
  dict_get d "code" PNone = PStr "000000" ->
  get_device_state device_id device_token w s =
    (Ok (dict_get d "data" PNone),
     after_dispatch s1
       (api_request None
          [("method", PStr "Hub.getState");
           ("time", PInt (epoch_ms (clock w (ticks (process s1)))));
           ("params",
            PDict [("targetDevice",
                    PDict [("deviceId", device_id); ("token", device_token)])])]
          (access_token (self s1)))).
Proof.
  intros E Hb Hcode.
  unfold get_device_state.
  after_call (call_api_body_run w s "Hub.getState"
                (PDict (target_device device_id device_token)) None s1 _ E Hb).
  rewrite Hcode. cbn [py_eq_str String.eqb Ascii.eqb Bool.eqb andb].
  reflexivity.
Qed.

(** X21: on the success code and a ['data'] object, each provisioning
    operation returns what ['data'] holds under its result key; when
    ['data'] or the key is missing it returns the same value as for a
    failed call, the empty list or [None]. *)
Theorem provisioning_call_success w s c key s1 d data :
  result_key c = Some key ->
  _ensure_valid_token w s = (Ok true, s1) ->
  api_body (api_endpoint w (api_posts (process s1))) = Some (PDict d) ->
  dict_get d "code" PNone = PStr "000000" ->
  dict_get d "data" (PDict []) = PDict data ->
  exists s',
    run_domain_call c w s = (Ok (dict_get data key (failure_value c)), s') /\
    self s' = self s1.
Proof.
  intros Hkey E Hb Hcode Hdata.
  destruct c; cbn [result_key] in Hkey; try discriminate Hkey;
    inversion Hkey; subst key; cbn [run_domain_call failure_value];
    [ unfold request_device_ids | unfold activate_device_id
    | unfold request_serial_numbers | unfold bind_serial_number ];
    unfold bind at 1;
    rewrite (call_api_body_run w s _ _ _ s1 _ E Hb);
    run_monad; cbn [py_get]; run_monad;
    rewrite Hcode; cbn [py_eq_str String.eqb Ascii.eqb Bool.eqb andb];
    run_monad; rewrite Hdata; cbn [py_get];
    eexists; split; reflexivity.
Qed.

(** X22: the operations that look inside ['data'] raise when it is there
    but is not an object.  On the success code with a ['data'] that is
    [null], a list, a string or a number, [get_home_info] and the four
    provisioning operations raise [AttributeError]; [home_id] is not
    assigned. *)
Theorem domain_call_rejects_non_object_data w s c s1 d data :
  reads_data c = true ->
  _ensure_valid_token w s = (Ok true, s1) ->
  api_body (api_endpoint w (api_posts (process s1))) = Some (PDict d) ->
  dict_get d "code" PNone = PStr "000000" ->
  dict_get d "data" (PDict []) = data ->
  is_dict data = false ->
  exists e s',
    run_domain_call c w s = (Raise e, s') /\
    exn_kind e = AttributeError /\
    self s' = self s1.
Proof.
  intros Hreads E Hb Hcode Hdata Hnd.
  destruct c; cbn [reads_data] in Hreads; try discriminate Hreads;
    cbn [run_domain_call];
    [ unfold get_home_info | unfold request_device_ids
    | unfold activate_device_id | unfold request_serial_numbers
    | unfold bind_serial_number ];
    unfold bind at 1;
    rewrite (call_api_body_run w s _ _ _ s1 _ E Hb);
    run_monad; cbn [py_get]; run_monad;
    rewrite Hcode; cbn [py_eq_str String.eqb Ascii.eqb Bool.eqb andb];
    run_monad; rewrite Hdata;
    destruct data; try discriminate Hnd;
    cbn [py_get]; run_monad;
    do 2 eexists; repeat split; reflexivity.
Qed.

(** *** Parameters of the device operations *)

Lemma dict_get_set_same d k v default :
  dict_get (dict_set d k v) k default = v.
Proof.
  induction d as [|[k' v'] d IH]; cbn.
  - now rewrite String.eqb_refl.
  - destruct (String.eqb_spec k' k) as [->|Hne]; cbn.
    + now rewrite String.eqb_refl.
    + destruct (String.eqb_spec k' k); [contradiction|exact IH].
Qed.

Lemma dict_get_set_other d k k' v default :
  k <> k' -> dict_get (dict_set d k v) k' default = dict_get d k' default.
Proof.
  intros Hne. induction d as [|[k0 v0] d IH]; cbn.
  - destruct (String.eqb_spec k k'); [contradiction|reflexivity].
  - destruct (String.eqb_spec k0 k) as [->|Hk]; cbn.
    + destruct (String.eqb_spec k k'); [contradiction|reflexivity].
    + destruct (String.eqb_spec k0 k'); [reflexivity|exact IH].
Qed.

Lemma dict_mem_false d k :
  ~ In k (map fst d) -> dict_mem d k = false.
Proof.
  induction d as [|[k' v] d IH]; cbn; [reflexivity|].
  intros Hn. destruct (String.eqb_spec k' k) as [->|Hne].
  - exfalso. apply Hn. now left.
  - apply IH. intros Hin. apply Hn. now right.
Qed.

(** Looking a key up after [d.update(other)]: the value of [other] when
    [other] has the key, the value of [d] otherwise. *)
Lemma dict_get_update other : forall d k default,
  NoDup (map fst other) ->
  dict_get (dict_update d other) k default =
    if dict_mem other k then dict_get other k default else dict_get d k default.
Proof.
  unfold dict_update.
  induction other as [|[k1 v1] other IH]; intros d k default Hnd; cbn;
    [reflexivity|].
  inversion Hnd as [|? ? Hnotin Hnd']; subst.
  rewrite (IH _ _ _ Hnd'). cbn [fst snd].
  destruct (String.eqb_spec k1 k) as [->|Hne].
  - rewrite (dict_mem_false _ _ Hnotin). apply dict_get_set_same.
  - destruct (dict_mem other k); [reflexivity|].
    now apply dict_get_set_other.
Qed.

Lemma dict_set_nonempty d k v : dict_set d k v <> [].
Proof.
  destruct d as [|[k' v'] d]; cbn; [discriminate|].
  destruct (k' =? k)%string; discriminate.
Qed.

Lemma dict_update_nonempty other : forall d,
  d <> [] -> dict_update d other <> [].
Proof.
  unfold dict_update.
  induction other as [|[k v] other IH]; intros d Hd; cbn; [exact Hd|].
  apply IH. apply dict_set_nonempty.
Qed.

(** X23: the caller's [params] of [control_device] are merged over the
    device address at the top level.  A key of [params] is found in the
    parameters sent with the caller's value, ['targetDevice'] included,
    so that a caller who passes that key replaces the address built from
    [device_id] and [device_token]; every other key is looked up in that
    address. *)
Theorem control_params_lookup device_id device_token params k default :
  NoDup (map fst params) ->
  dict_get (control_params device_id device_token (Some params)) k default =
    if dict_mem params k then dict_get params k default
    else dict_get (target_device device_id device_token) k default.
Proof.
  intros Hnd. unfold control_params.
  destruct params as [|item items]; [reflexivity|].
  now apply dict_get_update.
Qed.

Lemma control_params_truthy device_id device_token params :
  truthy (PDict (control_params device_id device_token params)) = true.
Proof.
  assert (H : control_params device_id device_token params <> []).
  { unfold control_params.
    destruct params as [[|item items]|]; try discriminate.
    apply dict_update_nonempty. discriminate. }
  cbn. destruct (control_params device_id device_token params);
    [contradiction|reflexivity].
Qed.

(** X24: [control_device] always sends a ['params'] field: the merged
    parameters are never empty, so the envelope of its one request, sent
    to [API_URL] under the caller's method, has the three keys ['method'],
    ['time'] and ['params']. *)
Theorem control_device_sends_params w s s1 device_id device_token method params :
  _ensure_valid_token w s = (Ok true, s1) ->
  exists v,
    control_device device_id device_token method params w s =
      (Ok v,
       after_dispatch s1
         (api_request None
            [("method", PStr method);
             ("time", PInt (epoch_ms (clock w (ticks (process s1)))));
             ("params", PDict (control_params device_id device_token params))]
            (access_token (self s1)))).
Proof.
  intros E. unfold control_device.
  destruct (call_api_dispatch w s method
              (PDict (control_params device_id device_token params)) None s1 E)
    as (v & R & _).
  exists v. rewrite R.
  unfold build_payload. rewrite control_params_truthy. reflexivity.
Qed.

(** X25: routing.  Once the token check has passed, every unwrapping
    operation sends exactly one request, also when it goes on to raise:
    the provisioning operations to [PRODUCTION_URL], [get_home_info] and
    [get_device_state] to [API_URL], each with the bearer token held
    after the check and a timeout of 10 seconds. *)
Theorem domain_call_routing w s c s1 :
  _ensure_valid_token w s = (Ok true, s1) ->
  exists r,
    process (snd (run_domain_call c w s)) = process (after_dispatch s1 r) /\
    url r = (if provisioning c then PRODUCTION_URL else API_URL) /\
    headers r = [("Content-Type", Literal "application/json");
                 ("Authorization", Bearer (access_token (self s1)))] /\
    timeout r = Some 10.
Proof.
  intros E.
  destruct c; cbn [run_domain_call provisioning];
    [ unfold get_home_info | unfold get_device_state | unfold request_device_ids
    | unfold activate_device_id | unfold request_serial_numbers
    | unfold bind_serial_number ];
    unfold bind at 1;
    match goal with
    | |- context [_call_api ?m ?p ?t w s] =>
        destruct (call_api_dispatch w s m p t s1 E) as (v & R & _)
    end;
    rewrite R; eexists;
    (split; [run_monad; repeat case_split; reflexivity|]);
    repeat split; reflexivity.
Qed.

(** X26: an optional identifier that is falsy is left out.
    [activate_device_id] with an empty or otherwise falsy [device_id], and
    [bind_serial_number] with such an [sn], run exactly as with [None]:
    same requests, same result. *)
Theorem falsy_identifier_is_absent w s x chip_id app_eui device_id :
  truthy x = false ->
  activate_device_id chip_id app_eui x w s =
    activate_device_id chip_id app_eui PNone w s /\
  bind_serial_number device_id x w s = bind_serial_number device_id PNone w s.
Proof.
  intros H. unfold activate_device_id, bind_serial_number,
    activation_params, binding_params.
  rewrite H. split; reflexivity.
Qed.

(** * Properties of the status snapshot *)

(** X27: [get_status] is purely observational.  It never raises, leaves
    the client object as it is and sends nothing; it reads the clock once
    when an expiry is stored and not at all otherwise.  The snapshot
    reports ['authenticated'] exactly when [access_token] is not [None],
    and a ['token_valid'] of [None] exactly when no expiry is stored. *)
Theorem get_status_observes w s isoformat :
  exists d s',
    get_status isoformat w s = (Ok (PDict d), s') /\
    self s' = self s /\
    trace (process s') = trace (process s) /\
    token_posts (process s') = token_posts (process s) /\
    api_posts (process s') = api_posts (process s) /\
    ticks (process s') =
      (match token_expires_at (self s) with
       | Some _ => S (ticks (process s))
       | None => ticks (process s)
       end) /\
    (dict_get d "authenticated" PNone = PBool true <->
     access_token (self s) <> PNone) /\
    (dict_get d "token_valid" (PBool false) = PNone <->
     token_expires_at (self s) = None) /\
    dict_get d "home_id" (PBool false) = home_id (self s).
Proof.
  assert (Hauth : PBool (is_not_none (access_token (self s))) = PBool true <->
                  access_token (self s) <> PNone).
  { destruct (access_token (self s)); cbn; split; intros H;
      try discriminate; try reflexivity; congruence. }
  unfold get_status. run_monad.
  destruct (token_expires_at (self s)) as [expiry|]; run_monad;
    do 2 eexists; (split; [reflexivity|]); cbn;
    repeat split; try reflexivity; try discriminate; apply Hauth.
Qed.

(** X28: the snapshot and the policy gate draw the line differently.
    ['token_valid'] compares the clock with the expiry itself, without the
    five-minute margin: in the last five minutes before the expiry, with
    auto-renewal enabled, [get_status] still reports the token as valid
    while [_ensure_valid_token], at the same clock reading, renews it. *)
Theorem token_valid_within_margin w s isoformat expiry :
  truthy (access_token (self s)) = true ->
  auto_refresh (self s) = true ->
  token_expires_at (self s) = Some expiry ->
  valid_datetime (expiry - timedelta_minutes 5) ->
  expiry - timedelta_minutes 5 < naive (clock w (ticks (process s))) ->
  naive (clock w (ticks (process s))) < expiry ->
  (exists d s',
     get_status isoformat w s = (Ok (PDict d), s') /\
     dict_get d "token_valid" PNone = PBool true) /\
  calls RefreshAccessToken (trace (process (snd (_ensure_valid_token w s)))) =
    S (calls RefreshAccessToken (trace (process s))).
Proof.
  intros Htok Hauto Hexp Hmargin Hdue Hbefore. split.
  - unfold get_status. run_monad. rewrite Hexp. run_monad.
    destruct (Z.ltb_spec (naive (clock w (ticks (process s)))) expiry); [|lia].
    do 2 eexists. split; reflexivity.
  - unfold _ensure_valid_token. run_monad.
    rewrite Htok, Hauto, Hexp. cbn [negb].
    rewrite (datetime_sub_valid _ _ Hmargin).
    destruct (Z.gtb_spec (naive (clock w (ticks (process s))))
                (expiry - timedelta_minutes 5)); [|lia].
    match goal with
    | |- context [refresh_access_token w ?s1] =>
        destruct (refresh_access_token_spec w s1) as (b & s' & E & T & _ & _)
    end.
    rewrite E. cbn in *. rewrite T, calls_app.
    destruct (truthy (refresh_token (self s))); cbn; lia.
Qed.

End Properties.

(** * The properties at work *)

Section Instances.
#[local] Existing Instance no_floats.

(** ** Runs of the model *)

(** A run is described by evaluating it. *)
Lemma by_running {A S : Type} (run : result A * S) (r : result A) (P : S -> Prop) :
  fst run = r -> P (snd run) -> exists s', run = (r, s') /\ P s'.
Proof. destruct run as [r0 s0]. cbn. intros <- H. eauto. Qed.

Ltac run_model := apply by_running; [vm_compute; reflexivity | repeat split; vm_compute; reflexivity].

(** A new client calls the API: one authentication, then one request that
    carries the token just obtained; the body comes back as it is. *)
Example first_call_authenticates :
  exists s',
    _call_api "Home.getGeneralInfo" PNone None healthy_world new_client
      = (Ok success_body, s') /\
    access_token (self s') = PStr "tok1" /\
    token_expires_at (self s') = Some (noon + one_hour) /\
    trace (process s') =
      [Called Authenticate;
       Posted (client_credentials_request (self new_client));
       Posted {| url := API_URL; data := None;
                 json_body := Some (PDict [("method", PStr "Home.getGeneralInfo");
                                           ("time", PInt 1767268801000)]);
                 headers := [("Content-Type", Literal "application/json");
                             ("Authorization", Bearer (PStr "tok1"))];
                 timeout := Some 10 |}].
Proof. run_model. Qed.

(** A token two minutes from expiry is refreshed before the API request. *)
Example expiring_token_is_refreshed :
  exists s',
    _call_api "Home.getDeviceList" PNone None healthy_world
      (holding (timedelta_minutes 2)) = (Ok success_body, s') /\
    calls RefreshAccessToken (trace (process s')) = 1%nat /\
    calls Authenticate (trace (process s')) = 0%nat /\
    posts (trace (process s')) = 2%nat.
Proof. run_model. Qed.

(** A lifetime that ends at [datetime.min] is stored by [authenticate];
    the next call cannot subtract the margin from it, and the
    [OverflowError] leaves [_call_api]. *)
Example margin_before_datetime_min :
  exists s1,
    authenticate ancient_world new_client = (Ok true, s1) /\
    token_expires_at (self s1) = Some 0 /\
    fst (_call_api "Home.getGeneralInfo" PNone None ancient_world s1)
      = Raise (Exn OverflowError "date value out of range").
Proof. run_model. Qed.

(** ** The dispatcher *)

(** C1, as stated, fails: a client built from valid credentials calls an
    API that answers HTTP 200 with the JSON body [{}]; [_call_api] returns
    that empty dict, which has no ['code']. *)
Lemma call_api_passes_any_body_through :
  (exists s',
     _call_api "Home.getGeneralInfo" PNone None empty_body_world new_client
       = (Ok (PDict []), s')) /\
  ~ (exists v s',
       _call_api "Home.getGeneralInfo" PNone None empty_body_world new_client
         = (Ok v, s') /\
       well_formed_ApiResult v = true).
Proof.
  split; [exists (snd (_call_api "Home.getGeneralInfo" PNone None
                         empty_body_world new_client)); vm_compute; reflexivity|].
  intros (v & s' & E & W). vm_compute in E. inversion E; subst v.
  discriminate W.
Qed.

Lemma call_api_returns_witness :
  margin_checkable (self without_renewal_at_datetime_min) /\
  exists valid s1 v s',
    _ensure_valid_token failing_api_world without_renewal_at_datetime_min
      = (Ok valid, s1) /\
    _call_api "Home.getGeneralInfo" PNone None failing_api_world
      without_renewal_at_datetime_min = (Ok v, s') /\
    (if valid then
       match api_endpoint failing_api_world
               (api_posts (process without_renewal_at_datetime_min)) with
       | Raise e =>
           v = PDict [("code", PStr "999999"); ("desc", PStr (exn_str e))]
       | Ok r =>
           if status_code r =? 200 then
             match json r with
             | Ok body => v = body
             | Raise e =>
                 v = PDict [("code", PStr "999999"); ("desc", PStr (exn_str e))]
             end
           else
             v = PDict [("code", PStr (str_int (status_code r)));
                        ("desc", PStr ("HTTP " ++ str_int (status_code r)
                                       ++ " error"))]
       end
     else
       v = PDict [("code", PStr "999999");
                  ("desc", PStr "Failed to obtain valid token")]) /\
    (well_formed_ApiResult v = true \/
     exists r,
       api_endpoint failing_api_world
         (api_posts (process without_renewal_at_datetime_min)) = Ok r /\
       status_code r = 200 /\ json r = Ok v).
Proof.
  assert (H : margin_checkable (self without_renewal_at_datetime_min)).
  { intros _ Hauto. discriminate Hauto. }
  split; [exact H|].
  apply (call_api_returns failing_api_world without_renewal_at_datetime_min
           "Home.getGeneralInfo" PNone None H).
Defined.

Lemma call_api_http_error_witness :
  _ensure_valid_token failing_api_world (holding one_hour)
    = (Ok true, snd (_ensure_valid_token failing_api_world (holding one_hour))) /\
  api_endpoint failing_api_world
    (api_posts (process (snd (_ensure_valid_token failing_api_world
                                (holding one_hour))))) = Ok internal_error /\
  status_code internal_error <> 200 /\
  exists s',
    _call_api "Home.getGeneralInfo" PNone None failing_api_world (holding one_hour)
      = (Ok (PDict [("code", PStr "500"); ("desc", PStr "HTTP 500 error")]), s').
Proof.
  repeat split; try reflexivity; try discriminate.
  apply (call_api_http_error failing_api_world (holding one_hour) _ _ _
           (snd (_ensure_valid_token failing_api_world (holding one_hour)))
           internal_error);
    [reflexivity | reflexivity | discriminate].
Defined.

(** ** The policy gate *)

Lemma ensure_valid_token_authenticates_witness :
  truthy (access_token (self new_client)) = false /\
  exists b s',
    _ensure_valid_token healthy_world new_client = (Ok b, s') /\
    authenticate healthy_world new_client = (Ok b, s') /\
    calls Authenticate (trace (process s')) =
      S (calls Authenticate (trace (process new_client))) /\
    calls RefreshAccessToken (trace (process s')) =
      calls RefreshAccessToken (trace (process new_client)).
Proof.
  split; [reflexivity|].
  apply (ensure_valid_token_authenticates healthy_world new_client).
  reflexivity.
Defined.

(** C3, as stated, fails at the boundary: the token expires exactly five
    minutes after the clock reading, and [_ensure_valid_token] returns
    [True] without entering [refresh_access_token]. *)
Lemma ensure_valid_token_at_the_margin :
  truthy (access_token (self (holding (timedelta_minutes 5)))) = true /\
  auto_refresh (self (holding (timedelta_minutes 5))) = true /\
  token_expires_at (self (holding (timedelta_minutes 5)))
    = Some (noon + timedelta_minutes 5) /\
  naive (clock healthy_world (ticks (process (holding (timedelta_minutes 5)))))
    = noon + timedelta_minutes 5 - timedelta_minutes 5 /\
  (exists s',
     _ensure_valid_token healthy_world (holding (timedelta_minutes 5))
       = (Ok true, s') /\
     trace (process s') = trace (process (holding (timedelta_minutes 5)))) /\
  ~ (exists b s',
       _ensure_valid_token healthy_world (holding (timedelta_minutes 5))
         = (Ok b, s') /\
       calls RefreshAccessToken (trace (process s')) =
         S (calls RefreshAccessToken
              (trace (process (holding (timedelta_minutes 5)))))).
Proof.
  repeat split; try reflexivity.
  - run_model.
  - intros (b & s' & E & C). vm_compute in E. inversion E; subst b s'.
    discriminate C.
Qed.

Lemma ensure_valid_token_refreshes_witness :
  truthy (access_token (self (holding (timedelta_minutes 2)))) = true /\
  auto_refresh (self (holding (timedelta_minutes 2))) = true /\
  token_expires_at (self (holding (timedelta_minutes 2)))
    = Some (noon + timedelta_minutes 2) /\
  valid_datetime (noon + timedelta_minutes 2 - timedelta_minutes 5) /\
  noon + timedelta_minutes 2 - timedelta_minutes 5
    < naive (clock healthy_world (ticks (process (holding (timedelta_minutes 2))))) /\
  exists b s',
    _ensure_valid_token healthy_world (holding (timedelta_minutes 2)) = (Ok b, s') /\
    calls RefreshAccessToken (trace (process s')) =
      S (calls RefreshAccessToken (trace (process (holding (timedelta_minutes 2))))) /\
    calls Authenticate (trace (process s')) =
      ((if truthy (refresh_token (self (holding (timedelta_minutes 2))))
        then 0 else 1)
       + calls Authenticate (trace (process (holding (timedelta_minutes 2)))))%nat /\
    posts (trace (process s')) =
      S (posts (trace (process (holding (timedelta_minutes 2))))).
Proof.
  assert (V : valid_datetime (noon + timedelta_minutes 2 - timedelta_minutes 5))
    by (vm_compute; split; discriminate).
  assert (L : noon + timedelta_minutes 2 - timedelta_minutes 5
              < naive (clock healthy_world
                         (ticks (process (holding (timedelta_minutes 2))))))
    by reflexivity.
  repeat split; try reflexivity; try exact L; try apply V.
  apply (ensure_valid_token_refreshes healthy_world
           (holding (timedelta_minutes 2)) (noon + timedelta_minutes 2)
           eq_refl eq_refl eq_refl V L).
Defined.

Lemma ensure_valid_token_fresh_witness :
  truthy (access_token (self (holding one_hour))) = true /\
  auto_refresh (self (holding one_hour)) = true /\
  token_expires_at (self (holding one_hour)) = Some (noon + one_hour) /\
  valid_datetime (noon + one_hour) /\
  valid_datetime (naive (clock healthy_world (ticks (process (holding one_hour))))) /\
  naive (clock healthy_world (ticks (process (holding one_hour))))
    + timedelta_minutes 5 < noon + one_hour /\
  exists s',
    _ensure_valid_token healthy_world (holding one_hour) = (Ok true, s') /\
    self s' = self (holding one_hour) /\
    trace (process s') = trace (process (holding one_hour)) /\
    token_posts (process s') = token_posts (process (holding one_hour)) /\
    api_posts (process s') = api_posts (process (holding one_hour)).
Proof.
  assert (V1 : valid_datetime (noon + one_hour))
    by (vm_compute; split; discriminate).
  assert (V2 : valid_datetime
                 (naive (clock healthy_world (ticks (process (holding one_hour))))))
    by (vm_compute; split; discriminate).
  repeat split; try reflexivity; try apply V1; try apply V2.
  apply (ensure_valid_token_fresh healthy_world (holding one_hour)
           (noon + one_hour) eq_refl eq_refl eq_refl V1 V2).
  reflexivity.
Defined.

(** ** The token state *)

(** C6, as stated, fails: the token endpoint answers a new client with
    HTTP 200 and the JSON body [{}]; [authenticate] stores [None] as the
    access token and an expiry one hour ahead. *)
Lemma authenticate_without_access_token :
  token_invariant (self new_client) /\
  access_token (self (run_operation OpAuthenticate tokenless_world new_client))
    = PNone /\
  token_expires_at (self (run_operation OpAuthenticate tokenless_world new_client))
    = Some (noon + one_hour) /\
  ~ token_invariant (self (run_operation OpAuthenticate tokenless_world new_client)).
Proof.
  repeat split; try reflexivity.
  intros H. specialize (H eq_refl). discriminate H.
Qed.

Lemma token_invariant_reachable_witness :
  issues_access_tokens healthy_world /\
  reachable healthy_world
    (run_operation (OpCallApi "Home.getGeneralInfo" PNone None)
       healthy_world new_client) /\
  token_invariant
    (self (run_operation (OpCallApi "Home.getGeneralInfo" PNone None)
             healthy_world new_client)).
Proof.
  assert (W : issues_access_tokens healthy_world).
  { intros n r d Hr _ Hd. cbn in Hr. inversion Hr; subst r.
    cbn in Hd. inversion Hd; subst d. discriminate. }
  assert (R : reachable healthy_world
                (run_operation (OpCallApi "Home.getGeneralInfo" PNone None)
                   healthy_world new_client)).
  { apply reachable_step. apply reachable_init. }
  repeat split; [exact W | exact R |].
  apply (token_invariant_reachable healthy_world _ W R).
Defined.

(** C7, on the code: a client holding the refresh token [ref1] refreshes;
    the token endpoint answers HTTP 200 with a new access token and the
    new refresh token [ref2].  The access token and the expiry are taken
    from the response; the stored refresh token is still [ref1]. *)
Theorem refresh_access_token_ignores_rotation :
  truthy (refresh_token (self (holding (timedelta_minutes 2)))) = true /\
  token_endpoint rotating_world
    (token_posts (process (holding (timedelta_minutes 2))))
    = http 200 rotated_token_document /\
  dict_get [("access_token", PStr "tok2"); ("refresh_token", PStr "ref2");
            ("expires_in", PInt 3600)] "refresh_token" PNone = PStr "ref2" /\
  exists s',
    refresh_access_token rotating_world (holding (timedelta_minutes 2))
      = (Ok true, s') /\
    access_token (self s') = PStr "tok2" /\
    token_expires_at (self s') = Some (noon + one_hour) /\
    refresh_token (self s') = PStr "ref1".
Proof.
  repeat split; try reflexivity.
  run_model.
Qed.

(** C9, as stated, fails: the token endpoint answers HTTP 200 with a token
    document whose lifetime is the string ["3600"]; [authenticate] has
    assigned the new access and refresh tokens when [timedelta] raises, and
    returns [False] with the old expiry. *)
Lemma authenticate_fails_after_assigning :
  exists s',
    authenticate quoted_lifetime_world (holding one_hour) = (Ok false, s') /\
    token_state (self s') = (PStr "tok2", PStr "ref2", Some (noon + one_hour)) /\
    token_state (self s') <> token_state (self (holding one_hour)).
Proof.
  apply by_running; [vm_compute; reflexivity|].
  split; [vm_compute; reflexivity|].
  intros H. vm_compute in H. discriminate H.
Qed.

Lemma token_acquisition_failure_is_atomic_witness :
  no_token_document
    (token_endpoint rejecting_world (token_posts (process (holding one_hour))))
    = true /\
  (exists s',
     authenticate rejecting_world (holding one_hour) = (Ok false, s') /\
     token_state (self s') = token_state (self (holding one_hour))) /\
  (exists s',
     refresh_access_token rejecting_world (holding one_hour) = (Ok false, s') /\
     token_state (self s') = token_state (self (holding one_hour))).
Proof.
  split; [reflexivity|].
  apply (token_acquisition_failure_is_atomic rejecting_world (holding one_hour)).
  reflexivity.
Defined.

(** ** The further properties at concrete inputs *)

Ltac in_range := vm_compute; split; discriminate.

Lemma authenticate_success_witness :
  token_endpoint rotating_world (token_posts (process new_client))
    = Ok (ok_response rotated_token_document) /\
  valid_datetime (naive (clock rotating_world (ticks (process new_client)))
                  + one_hour) /\
  exists s',
    authenticate rotating_world new_client = (Ok true, s') /\
    token_state (self s') = (PStr "tok2", PStr "ref2", Some (noon + one_hour)).
Proof.
  assert (V : valid_datetime
                (naive (clock rotating_world (ticks (process new_client)))
                 + one_hour)) by in_range.
  exact (conj eq_refl (conj V
    (authenticate_success rotating_world new_client
       (ok_response rotated_token_document)
       [("access_token", PStr "tok2"); ("refresh_token", PStr "ref2");
        ("expires_in", PInt 3600)]
       one_hour eq_refl eq_refl eq_refl eq_refl V))).
Defined.

Lemma authenticate_default_lifetime_witness :
  token_endpoint bare_world (token_posts (process new_client))
    = Ok (ok_response bare_token_document) /\
  dict_mem [("access_token", PStr "tok1")] "expires_in" = false /\
  exists s',
    authenticate bare_world new_client = (Ok true, s') /\
    token_expires_at (self s') = Some (noon + 3600 * US_PER_SECOND).
Proof.
  assert (V : valid_datetime
                (naive (clock bare_world (ticks (process new_client)))
                 + 3600 * US_PER_SECOND)) by in_range.
  exact (conj eq_refl (conj eq_refl
    (authenticate_default_lifetime bare_world new_client
       (ok_response bare_token_document) [("access_token", PStr "tok1")]
       eq_refl eq_refl eq_refl eq_refl V))).
Defined.

Lemma authenticate_true_inv_witness :
  authenticate healthy_world new_client
    = (Ok true, snd (authenticate healthy_world new_client)) /\
  exists r d lifetime,
    token_endpoint healthy_world (token_posts (process new_client)) = Ok r /\
    status_code r = 200 /\
    json r = Ok (PDict d) /\
    timedelta_seconds (dict_get d "expires_in" (PInt 3600)) = Ok lifetime /\
    valid_datetime (naive (clock healthy_world (ticks (process new_client)))
                    + lifetime) /\
    token_state (self (snd (authenticate healthy_world new_client))) =
      (dict_get d "access_token" PNone,
       dict_get d "refresh_token" PNone,
       Some (naive (clock healthy_world (ticks (process new_client))) + lifetime)).
Proof.
  assert (E : authenticate healthy_world new_client
              = (Ok true, snd (authenticate healthy_world new_client)))
    by (vm_compute; reflexivity).
  exact (conj E (authenticate_true_inv healthy_world new_client _ E)).
Defined.

Lemma refresh_single_guarded_request_witness :
  truthy (refresh_token (self (holding (timedelta_minutes 2)))) = true /\
  exists b s',
    refresh_access_token healthy_world (holding (timedelta_minutes 2)) = (Ok b, s') /\
    trace (process s') =
      (trace (process (holding (timedelta_minutes 2))) ++
        [Called RefreshAccessToken;
         Posted (refresh_token_request (self (holding (timedelta_minutes 2))))])%list /\
    token_posts (process s') =
      S (token_posts (process (holding (timedelta_minutes 2)))) /\
    api_posts (process s') = api_posts (process (holding (timedelta_minutes 2))) /\
    configuration (self s') = configuration (self (holding (timedelta_minutes 2))).
Proof.
  exact (conj eq_refl
    (refresh_single_guarded_request healthy_world
       (holding (timedelta_minutes 2)) eq_refl)).
Defined.

Lemma ensure_valid_token_without_renewal_witness :
  truthy (access_token (self without_renewal)) = true /\
  auto_refresh (self without_renewal) = false /\
  token_expires_at (self without_renewal) = Some (noon - one_hour) /\
  _ensure_valid_token healthy_world without_renewal = (Ok true, without_renewal).
Proof.
  exact (conj eq_refl (conj eq_refl (conj eq_refl
    (ensure_valid_token_without_renewal healthy_world without_renewal
       eq_refl (or_introl eq_refl))))).
Defined.

Lemma authenticate_then_ensure_valid_witness :
  token_endpoint healthy_world (token_posts (process new_client))
    = Ok (ok_response token_document) /\
  truthy (PStr "tok1") = true /\
  naive (clock healthy_world (S (ticks (process new_client))))
    + timedelta_minutes 5
    < naive (clock healthy_world (ticks (process new_client))) + one_hour /\
  exists s1 s2,
    authenticate healthy_world new_client = (Ok true, s1) /\
    _ensure_valid_token healthy_world s1 = (Ok true, s2) /\
    self s2 = self s1 /\
    trace (process s2) = trace (process s1) /\
    token_posts (process s2) = token_posts (process s1).
Proof.
  assert (V : valid_datetime
                (naive (clock healthy_world (ticks (process new_client)))
                 + one_hour)) by in_range.
  assert (P : 0 <= naive (clock healthy_world (S (ticks (process new_client)))))
    by (vm_compute; discriminate).
  assert (L : naive (clock healthy_world (S (ticks (process new_client))))
              + timedelta_minutes 5
              < naive (clock healthy_world (ticks (process new_client))) + one_hour)
    by reflexivity.
  exact (conj eq_refl (conj eq_refl (conj L
    (authenticate_then_ensure_valid healthy_world new_client
       (ok_response token_document)
       [("access_token", PStr "tok1"); ("expires_in", PInt 3600)]
       one_hour eq_refl eq_refl eq_refl eq_refl V eq_refl P L)))).
Defined.

Lemma call_api_without_token_witness :
  truthy (access_token (self new_client)) = false /\
  no_token_document
    (token_endpoint rejecting_world (token_posts (process new_client))) = true /\
  exists s',
    _call_api "Home.getGeneralInfo" PNone None rejecting_world new_client =
      (Ok (PDict [("code", PStr "999999");
                  ("desc", PStr "Failed to obtain valid token")]), s') /\
    api_posts (process s') = api_posts (process new_client) /\
    ticks (process s') = ticks (process new_client) /\
    posts (trace (process s')) = S (posts (trace (process new_client))) /\
    token_state (self s') = token_state (self new_client).
Proof.
  exact (conj eq_refl (conj eq_refl
    (call_api_without_token rejecting_world new_client
       "Home.getGeneralInfo" PNone None eq_refl eq_refl))).
Defined.

Lemma call_api_transport_failure_witness :
  _ensure_valid_token timeout_world (holding one_hour) = (Ok true, checked) /\
  exchange_error (api_endpoint timeout_world (api_posts (process checked)))
    = Some read_timeout /\
  exists s',
    _call_api "Home.getDeviceList" PNone None timeout_world (holding one_hour) =
      (Ok (PDict [("code", PStr "999999");
                  ("desc", PStr "Read timed out. (read timeout=10)")]), s').
Proof.
  assert (E : _ensure_valid_token timeout_world (holding one_hour)
              = (Ok true, checked)) by (vm_compute; reflexivity).
  exact (conj E (conj eq_refl
    (call_api_transport_failure timeout_world (holding one_hour)
       "Home.getDeviceList" PNone None checked read_timeout E eq_refl))).
Defined.

Lemma call_api_passes_body_through_witness :
  _ensure_valid_token healthy_world (holding one_hour) = (Ok true, checked) /\
  api_body (api_endpoint healthy_world (api_posts (process checked)))
    = Some success_body /\
  exists s',
    _call_api "Home.getGeneralInfo" PNone None healthy_world (holding one_hour)
      = (Ok success_body, s').
Proof.
  assert (E : _ensure_valid_token healthy_world (holding one_hour)
              = (Ok true, checked)) by (vm_compute; reflexivity).
  exact (conj E (conj eq_refl
    (call_api_passes_body_through healthy_world (holding one_hour)
       "Home.getGeneralInfo" PNone None checked success_body E eq_refl))).
Defined.

Lemma call_api_single_request_witness :
  _ensure_valid_token healthy_world (holding one_hour) = (Ok true, checked) /\
  exists v s2,
    _call_api "Home.getGeneralInfo" PNone (Some PRODUCTION_URL) healthy_world
      (holding one_hour) = (Ok v, s2) /\
    self s2 = self checked /\
    trace (process s2) =
      (trace (process checked) ++
        [Posted (api_request (Some PRODUCTION_URL)
                   (build_payload "Home.getGeneralInfo"
                      (epoch_ms (clock healthy_world (ticks (process checked))))
                      PNone)
                   (access_token (self checked)))])%list /\
    ticks (process s2) = S (ticks (process checked)) /\
    api_posts (process s2) = S (api_posts (process checked)) /\
    token_posts (process s2) = token_posts (process checked).
Proof.
  assert (E : _ensure_valid_token healthy_world (holding one_hour)
              = (Ok true, checked)) by (vm_compute; reflexivity).
  exact (conj E
    (call_api_single_request healthy_world (holding one_hour)
       "Home.getGeneralInfo" PNone (Some PRODUCTION_URL) checked E)).
Defined.

Lemma call_api_uses_renewed_token_witness :
  token_expires_at (self (holding (timedelta_minutes 2)))
    = Some (noon + timedelta_minutes 2) /\
  noon + timedelta_minutes 2 - timedelta_minutes 5
    < naive (clock rotating_world (ticks (process (holding (timedelta_minutes 2))))) /\
  token_endpoint rotating_world
    (token_posts (process (holding (timedelta_minutes 2))))
    = Ok (ok_response rotated_token_document) /\
  exists v s',
    _call_api "Home.getGeneralInfo" PNone None rotating_world
      (holding (timedelta_minutes 2)) = (Ok v, s') /\
    access_token (self s') = PStr "tok2" /\
    trace (process s') =
      (trace (process (holding (timedelta_minutes 2))) ++
        [Called RefreshAccessToken;
         Posted (refresh_token_request (self (holding (timedelta_minutes 2))));
         Posted (api_request None
                   (build_payload "Home.getGeneralInfo"
                      (epoch_ms (clock rotating_world
                         (S (S (ticks (process (holding (timedelta_minutes 2))))))))
                      PNone)
                   (PStr "tok2"))])%list.
Proof.
  assert (M : valid_datetime (noon + timedelta_minutes 2 - timedelta_minutes 5))
    by in_range.
  assert (L : noon + timedelta_minutes 2 - timedelta_minutes 5
              < naive (clock rotating_world
                         (ticks (process (holding (timedelta_minutes 2))))))
    by reflexivity.
  assert (V : valid_datetime
                (naive (clock rotating_world
                          (S (ticks (process (holding (timedelta_minutes 2))))))
                 + one_hour)) by in_range.
  exact (conj eq_refl (conj L (conj eq_refl
    (call_api_uses_renewed_token rotating_world (holding (timedelta_minutes 2))
       "Home.getGeneralInfo" PNone None (noon + timedelta_minutes 2)
       (ok_response rotated_token_document)
       [("access_token", PStr "tok2"); ("refresh_token", PStr "ref2");
        ("expires_in", PInt 3600)]
       one_hour eq_refl eq_refl eq_refl M L eq_refl eq_refl eq_refl eq_refl
       eq_refl V)))).
Defined.

Lemma domain_call_failure_witness :
  _ensure_valid_token rejecting_world new_client
    = (Ok false, snd (_ensure_valid_token rejecting_world new_client)) /\
  api_body (api_endpoint rejecting_world (api_posts (process new_client)))
    = Some success_body /\
  exists s',
    run_domain_call GetHomeInfo rejecting_world new_client = (Ok PNone, s') /\
    home_id (self s') = home_id (self new_client).
Proof.
  assert (E : _ensure_valid_token rejecting_world new_client
              = (Ok false, snd (_ensure_valid_token rejecting_world new_client)))
    by (vm_compute; reflexivity).
  exact (conj E (conj eq_refl
    (domain_call_failure rejecting_world new_client GetHomeInfo false _ E
       (fun H : false = true =>
          False_ind _ (Bool.diff_false_true H))))).
Defined.

Lemma domain_call_rejects_non_object_body_witness :
  _ensure_valid_token list_body_world (holding one_hour) = (Ok true, checked) /\
  api_body (api_endpoint list_body_world (api_posts (process checked)))
    = Some (PList []) /\
  is_dict (PList []) = false /\
  exists e s',
    run_domain_call GetHomeInfo list_body_world (holding one_hour)
      = (Raise e, s') /\
    exn_kind e = AttributeError.
Proof.
  assert (E : _ensure_valid_token list_body_world (holding one_hour)
              = (Ok true, checked)) by (vm_compute; reflexivity).
  exact (conj E (conj eq_refl (conj eq_refl
    (domain_call_rejects_non_object_body list_body_world (holding one_hour)
       GetHomeInfo checked (PList []) E eq_refl eq_refl)))).
Defined.

Lemma get_home_info_success_witness :
  _ensure_valid_token healthy_world (holding one_hour) = (Ok true, checked) /\
  api_body (api_endpoint healthy_world (api_posts (process checked)))
    = Some success_body /\
  exists s',
    get_home_info healthy_world (holding one_hour)
      = (Ok (PDict [("id", PStr "home1")]), s') /\
    home_id (self s') = PStr "home1" /\
    token_state (self s') = token_state (self checked).
Proof.
  assert (E : _ensure_valid_token healthy_world (holding one_hour)
              = (Ok true, checked)) by (vm_compute; reflexivity).
  exact (conj E (conj eq_refl
    (get_home_info_success healthy_world (holding one_hour) checked
       [("code", PStr "000000"); ("desc", PStr "Success");
        ("data", PDict [("id", PStr "home1")])]
       [("id", PStr "home1")] E eq_refl eq_refl eq_refl))).
Defined.

Lemma get_device_state_success_witness :
  _ensure_valid_token healthy_world (holding one_hour) = (Ok true, checked) /\
  api_body (api_endpoint healthy_world (api_posts (process checked)))
    = Some success_body /\
  fst (get_device_state (PStr "d1") (PStr "t1") healthy_world (holding one_hour))
    = Ok (PDict [("id", PStr "home1")]).
Proof.
  assert (E : _ensure_valid_token healthy_world (holding one_hour)
              = (Ok true, checked)) by (vm_compute; reflexivity).
  exact (conj E (conj eq_refl
    (f_equal fst
       (get_device_state_success healthy_world (holding one_hour) checked
          [("code", PStr "000000"); ("desc", PStr "Success");
           ("data", PDict [("id", PStr "home1")])]
          (PStr "d1") (PStr "t1") E eq_refl eq_refl)))).
Defined.

Lemma provisioning_call_success_witness :
  result_key (RequestDeviceIds (PInt 2)) = Some "deviceIdList" /\
  _ensure_valid_token device_ids_world (holding one_hour) = (Ok true, checked) /\
  api_body (api_endpoint device_ids_world (api_posts (process checked)))
    = Some device_ids_body /\
  exists s',
    run_domain_call (RequestDeviceIds (PInt 2)) device_ids_world
      (holding one_hour) = (Ok (PList [PStr "d1"; PStr "d2"]), s') /\
    self s' = self checked.
Proof.
  assert (E : _ensure_valid_token device_ids_world (holding one_hour)
              = (Ok true, checked)) by (vm_compute; reflexivity).
  exact (conj eq_refl (conj E (conj eq_refl
    (provisioning_call_success device_ids_world (holding one_hour)
       (RequestDeviceIds (PInt 2)) "deviceIdList" checked
       [("code", PStr "000000"); ("desc", PStr "Success");
        ("data", PDict [("deviceIdList", PList [PStr "d1"; PStr "d2"])])]
       [("deviceIdList", PList [PStr "d1"; PStr "d2"])]
       eq_refl E eq_refl eq_refl eq_refl)))).
Defined.

Lemma domain_call_rejects_non_object_data_witness :
  reads_data GetHomeInfo = true /\
  _ensure_valid_token null_data_world (holding one_hour) = (Ok true, checked) /\
  api_body (api_endpoint null_data_world (api_posts (process checked)))
    = Some null_data_body /\
  is_dict PNone = false /\
  exists e s',
    run_domain_call GetHomeInfo null_data_world (holding one_hour)
      = (Raise e, s') /\
    exn_kind e = AttributeError /\
    self s' = self checked.
Proof.
  assert (E : _ensure_valid_token null_data_world (holding one_hour)
              = (Ok true, checked)) by (vm_compute; reflexivity).
  exact (conj eq_refl (conj E (conj eq_refl (conj eq_refl
    (domain_call_rejects_non_object_data null_data_world (holding one_hour)
       GetHomeInfo checked
       [("code", PStr "000000"); ("desc", PStr "Success"); ("data", PNone)]
       PNone eq_refl E eq_refl eq_refl eq_refl eq_refl))))).
Defined.

Lemma control_params_lookup_witness :
  NoDup (map fst overriding_params) /\
  dict_get (control_params (PStr "d1") (PStr "t1") (Some overriding_params))
    "targetDevice" PNone = PStr "elsewhere".
Proof.
  assert (N : NoDup (map fst overriding_params)).
  { repeat constructor; cbn; intros H;
      repeat (destruct H as [H|H]; try discriminate H); exact H. }
  exact (conj N
    (control_params_lookup (PStr "d1") (PStr "t1") overriding_params
       "targetDevice" PNone N)).
Defined.

Lemma control_device_sends_params_witness :
  _ensure_valid_token healthy_world (holding one_hour) = (Ok true, checked) /\
  exists v,
    control_device (PStr "d1") (PStr "t1") "Switch.setSwitch"
      (Some [("state", PStr "open")]) healthy_world (holding one_hour) =
      (Ok v,
       after_dispatch checked
         (api_request None
            [("method", PStr "Switch.setSwitch");
             ("time", PInt (epoch_ms (clock healthy_world (ticks (process checked)))));
             ("params",
              PDict [("targetDevice",
                      PDict [("deviceId", PStr "d1"); ("token", PStr "t1")]);
                     ("state", PStr "open")])]
            (access_token (self checked)))).
Proof.
  assert (E : _ensure_valid_token healthy_world (holding one_hour)
              = (Ok true, checked)) by (vm_compute; reflexivity).
  exact (conj E
    (control_device_sends_params healthy_world (holding one_hour) checked
       (PStr "d1") (PStr "t1") "Switch.setSwitch"
       (Some [("state", PStr "open")]) E)).
Defined.

Lemma domain_call_routing_witness :
  _ensure_valid_token healthy_world (holding one_hour) = (Ok true, checked) /\
  exists r,
    process (snd (run_domain_call (BindSerialNumber (PStr "d1") PNone)
                    healthy_world (holding one_hour)))
      = process (after_dispatch checked r) /\
    url r = PRODUCTION_URL /\
    headers r = [("Content-Type", Literal "application/json");
                 ("Authorization", Bearer (PStr "tok1"))] /\
    timeout r = Some 10.
Proof.
  assert (E : _ensure_valid_token healthy_world (holding one_hour)
              = (Ok true, checked)) by (vm_compute; reflexivity).
  exact (conj E
    (domain_call_routing healthy_world (holding one_hour)
       (BindSerialNumber (PStr "d1") PNone) checked E)).
Defined.

Lemma falsy_identifier_is_absent_witness :
  truthy (PStr "") = false /\
  activate_device_id (PStr "chip1") (PStr "eui1") (PStr "") healthy_world
    (holding one_hour) =
    activate_device_id (PStr "chip1") (PStr "eui1") PNone healthy_world
      (holding one_hour) /\
  bind_serial_number (PStr "d1") (PStr "") healthy_world (holding one_hour) =
    bind_serial_number (PStr "d1") PNone healthy_world (holding one_hour).
Proof.
  exact (conj eq_refl
    (falsy_identifier_is_absent healthy_world (holding one_hour) (PStr "")
       (PStr "chip1") (PStr "eui1") (PStr "d1") eq_refl)).
Defined.

Lemma token_valid_within_margin_witness :
  token_expires_at (self (holding (timedelta_minutes 2)))
    = Some (noon + timedelta_minutes 2) /\
  noon + timedelta_minutes 2 - timedelta_minutes 5
    < naive (clock healthy_world (ticks (process (holding (timedelta_minutes 2))))) /\
  naive (clock healthy_world (ticks (process (holding (timedelta_minutes 2)))))
    < noon + timedelta_minutes 2 /\
  (exists d s',
     get_status (fun _ => "2026-01-01T12:02:00") healthy_world
       (holding (timedelta_minutes 2)) = (Ok (PDict d), s') /\
     dict_get d "token_valid" PNone = PBool true) /\
  calls RefreshAccessToken
    (trace (process (snd (_ensure_valid_token healthy_world
                            (holding (timedelta_minutes 2)))))) =
    S (calls RefreshAccessToken (trace (process (holding (timedelta_minutes 2))))).
Proof.
  assert (M : valid_datetime (noon + timedelta_minutes 2 - timedelta_minutes 5))
    by in_range.
  assert (L : noon + timedelta_minutes 2 - timedelta_minutes 5
              < naive (clock healthy_world
                         (ticks (process (holding (timedelta_minutes 2))))))
    by reflexivity.
  assert (B : naive (clock healthy_world
                       (ticks (process (holding (timedelta_minutes 2)))))
              < noon + timedelta_minutes 2) by reflexivity.
  exact (conj eq_refl (conj L (conj B
    (token_valid_within_margin healthy_world (holding (timedelta_minutes 2))
       (fun _ => "2026-01-01T12:02:00") (noon + timedelta_minutes 2)
       eq_refl eq_refl eq_refl M L B)))).
Defined.

End Instances.
